(** * Rule engine of the SWOT diagnostic (app.py)

    A shallow embedding of the two core functions of [app.py],
    [swot_from_profile] (the classifier) and [detect_needs] (the need
    deriver), together with the constants they read, and the properties
    the specification states about them.

    Encoding choices.
    - Python [str] is [string]: the UTF-8 bytes of the source literal.
      Equality of strings is equality of their bytes, and the substring
      test on bytes agrees with the one on code points (UTF-8 is
      self-synchronising).
    - Python [int] is [Z].
    - The [dataclass]es are records with the source's field names.
    - An observation is the two-key dict built by the helpers [strength],
      [weakness], [opportunity] and [threat]; it is only ever built by
      them, so it is a record with the fields [type] and [texte].
    - The SWOT dict is an association list: Python dicts keep insertion
      order, and the order of the four categories is part of what is
      specified.  [swot_get] is [dict.get] with a default.
    - [SERVICES] is a [gmap]; [SERVICES[k]] raises [KeyError] on a miss,
      which is the [KeyError] result below.
    - The local list [needs] mutated by the closure [add] is threaded
      through a small state-and-error monad.
    - The [seen] set of the deduplication loop is a [gset].

    The second part embeds the rest of the file: the table of needs
    ([needs_to_dataframe]), the drafts of e-mails ([make_email] and the
    loop that routes each row to an address), the members of the archive
    ([zip_emails]) and the Markdown synthesis. *)

From Stdlib Require Import ZArith String Ascii List Bool.
From Stdlib Require DecimalString DecimalNat DecimalFacts.
From stdpp Require Import base decidable list gmap sets strings.

Import ListNotations.
Local Open Scope string_scope.
Local Open Scope Z_scope.
Local Open Scope list_scope.

(** ** Catalogues and constants *)

Definition SECTEURS : list string :=
  ["BTP"; "Commerce"; "Services"; "Industrie"; "Agricole";
   "Professions libérales"; "E-commerce"; "Santé"; "Tech/SaaS"; "Autre"].
Definition DIGITAL : list string :=
  ["Pas informatique"; "Informatique rudimentaire"; "Informatique avancée"].
Definition TAILLE : list string :=
  ["0 salarié"; "1-10"; "11-49"; "50-249"; "250+"].
Definition IMPACT_ENV : list string := ["Faible/Non"; "Moyenne"; "Importante"].
Definition HORIZON_RETRAITE : list string :=
  ["Loin (> 5 ans)"; "À 5 ans"; "< 2 ans"].
Definition EXPO_INTERNATIONAL : list string :=
  ["Aucune"; "Occasionnelle"; "Régulière/Structurée"].
Definition DEPENDANCE_CLIENT : list string :=
  ["Faible (<20%)"; "Moyenne (20-40%)"; "Forte (>40%)"].
(** The two vocabularies the form declares inline. *)
Definition CROISSANCE : list string := ["En baisse"; "Stable"; "En croissance"].
Definition MARGE : list string := ["Faible"; "Correcte"; "Confortable"].

Definition SERVICES_items : list (string * string) :=
  [("social", "Service Paie & RH");
   ("fiscal", "Pôle Fiscal");
   ("patrimonial", "Pôle Conseil Patrimonial");
   ("rse", "Pôle RSE / CSRD");
   ("eco_strat", "Pôle Conseil Éco & Stratégie");
   ("gestion", "Pôle Gestion / Contrôle de gestion");
   ("digital", "Pôle Digitalisation");
   ("international", "Pôle International");
   ("btp", "Pôle Secteur BTP")].

Definition SERVICES : gmap string string := list_to_map SERVICES_items.

Definition PRIORITES : list string := ["Haute"; "Moyenne"; "Basse"].
Definition ECHEANCES : list string :=
  ["Immédiat (≤ 3 mois)"; "6-12 mois"; "> 12 mois"].

(** ** Data models *)

Record ClientProfile := {
  nom : string;
  secteur : string;
  taille : string;
  digital : string;
  impact_env : string;
  rse_sensible : bool;
  presence_cadres : bool;
  exposition_internationale : string;
  dependance_client : string;
  croissance : string;
  marge : string;
  tresorerie_tendue : bool;
  reporting_mensuel : bool;
  nb_banques : Z;
  proche_retraite : string;
  succession_envisagee : bool;
  patrimoine_dirigeant_important : bool;
  btp_specifique : bool;
  ecommerce_plateformes : bool;
  risques_juridiques : bool;
  notes : string
}.

Record Need := {
  besoin : string;
  service : string;
  priorite : string;
  echeance : string;
  impact : Z;
  justification : string
}.

Record Obs := { type : string; texte : string }.

Definition Swot : Type := list (string * list Obs).

(** ** Python operators on strings and lists *)

(** [x in (a, b, ...)] and [x in some_list] on strings. *)
Definition str_in (x : string) (l : list string) : bool :=
  existsb (String.eqb x) l.

(** [needle in hay] on two strings: the substring test. *)
Fixpoint str_contains (needle hay : string) : bool :=
  String.prefix needle hay ||
  match hay with
  | EmptyString => false
  | String _ rest => str_contains needle rest
  end.

(** [d.get(k, [])] *)
Fixpoint swot_get (k : string) (swot : Swot) : list Obs :=
  match swot with
  | [] => []
  | (k', v) :: rest => if String.eqb k k' then v else swot_get k rest
  end.

(** [l.append(x)] under an [if c:] with no [else]. *)
Definition append_if {A : Type} (c : bool) (l : list A) (x : A) : list A :=
  if c then l ++ [x] else l.

(** ** Helpers *)

Definition strength (txt : string) : Obs := {| type := "Force"; texte := txt |}.
Definition weakness (txt : string) : Obs := {| type := "Faiblesse"; texte := txt |}.
Definition opportunity (txt : string) : Obs := {| type := "Opportunité"; texte := txt |}.
Definition threat (txt : string) : Obs := {| type := "Menace"; texte := txt |}.

(** ** The classifier *)

Definition swot_from_profile (p : ClientProfile) : Swot :=
  let F : list Obs := [] in
  let fbl : list Obs := [] in
  let O : list Obs := [] in
  let M : list Obs := [] in
  (* Forces *)
  let F := append_if (digital p =? "Informatique avancée")%string F
             (strength "Digitalisation avancée (intégrations possibles)") in
  let F := append_if (reporting_mensuel p) F
             (strength "Reporting financier mensuel déjà en place") in
  let F := append_if (marge p =? "Confortable")%string F
             (strength "Marge confortable") in
  let F := append_if (croissance p =? "En croissance")%string F
             (strength "Croissance du CA") in
  (* Faiblesses *)
  let fbl := append_if (digital p =? "Pas informatique")%string fbl
               (weakness "Maturité digitale faible (risque d'erreurs/coûts)") in
  let fbl := append_if (negb (reporting_mensuel p)) fbl
               (weakness "Absence de reporting/indicateurs réguliers") in
  let fbl := append_if (marge p =? "Faible")%string fbl
               (weakness "Marge insuffisante / prix de revient non maîtrisé") in
  let fbl := append_if (tresorerie_tendue p) fbl
               (weakness "Trésorerie tendue / pas de prévisionnel") in
  (* Opportunités *)
  let O := append_if (str_in (proche_retraite p) ["À 5 ans"; "< 2 ans"]) O
             (opportunity "Préparer la transmission / retraite dirigeant") in
  let O := append_if (patrimoine_dirigeant_important p) O
             (opportunity "Optimisation patrimoniale (holding/SCI/PEA-PME, etc.)") in
  let O := append_if (rse_sensible p) O
             (opportunity "Valorisation via la démarche RSE / CSRD adaptée") in
  let O := append_if (str_in (exposition_internationale p)
                        ["Occasionnelle"; "Régulière/Structurée"]) O
             (opportunity "Développement export / structuration internationale") in
  (* Menaces *)
  let M := append_if (impact_env p =? "Importante")%string M
             (threat "Exposition réglementaire environnementale élevée") in
  let M := append_if (dependance_client p =? "Forte (>40%)")%string M
             (threat "Dépendance à un client majeur") in
  let M := append_if (risques_juridiques p) M
             (threat "Litiges / risques juridiques non traités") in
  let M := append_if (str_in (taille p) ["11-49"; "50-249"; "250+"]
                      && negb (presence_cadres p)) M
             (threat "Obligations sociales renforcées sans structuration RH") in
  (* Secteur/Spécifiques *)
  let M := append_if ((secteur p =? "BTP")%string || btp_specifique p) M
             (threat "Complexité BTP (retenues, situations, DGD)") in
  let M := append_if (ecommerce_plateformes p) M
             (threat "TVA plateformes / marketplace (OSS/IOSS)") in
  [("Forces", F); ("Faiblesses", fbl); ("Opportunités", O); ("Menaces", M)].

(** ** The need deriver *)

(** The outcome of a computation that may raise [KeyError]. *)
Inductive Result (A : Type) : Type :=
  | Ok (a : A)
  | KeyError (k : string).
Arguments Ok {A} a.
Arguments KeyError {A} k.

(** Statements of [detect_needs] that read and extend the local list
    [needs]. *)
Definition M (A : Type) : Type := list Need -> Result (A * list Need).

#[export] Instance M_ret : MRet M := fun A a needs => Ok (a, needs).
#[export] Instance M_bind : MBind M := fun A B f m needs =>
  match m needs with
  | Ok (a, needs') => f a needs'
  | KeyError k => KeyError k
  end.

(** [if c: stmt] *)
Definition when (c : bool) (stmt : M unit) : M unit :=
  if c then stmt else mret tt.

(** The closure [add]: the lookup [SERVICES[service_key]] comes first and
    may raise; then the new [Need] is appended to [needs]. *)
Definition add (besoin service_key priorite echeance : string) (impact : Z)
    (justif : string) : M unit :=
  fun needs =>
    match SERVICES !! service_key with
    | Some label =>
        Ok (tt, needs ++ [ {| besoin := besoin; service := label;
                              priorite := priorite; echeance := echeance;
                              impact := impact; justification := justif |} ])
    | None => KeyError service_key
    end.

(** [any(s in x["texte"] for x in obs)] *)
Definition any_texte_contains (s : string) (obs : list Obs) : bool :=
  existsb (fun x => str_contains s (texte x)) obs.

(** The rules of [detect_needs], up to the deduplication. *)
Definition generate (p : ClientProfile) (swot : Swot) : M unit :=
  (* Règles issues des faiblesses/menaces *)
  let fb_texts := map texte (swot_get "Faiblesses" swot) in
  let m_texts := map texte (swot_get "Menaces" swot) in
  when (str_in "Maturité digitale faible (risque d'erreurs/coûts)" fb_texts)
    (add "Cartographie & plan de digitalisation" "digital" "Moyenne"
       "6-12 mois" 3 "Digitalisation faible détectée") ;;
  when (str_in "Absence de reporting/indicateurs réguliers" fb_texts)
    (add "Mise en place de tableaux de bord mensuels" "gestion" "Haute"
       "Immédiat (≤ 3 mois)" 4 "Absence de pilotage mensuel") ;;
  when (str_in "Marge insuffisante / prix de revient non maîtrisé" fb_texts)
    (add "Étude prix de revient & politique de pricing" "eco_strat" "Haute"
       "Immédiat (≤ 3 mois)" 5 "Marge insuffisante") ;;
  when (str_in "Trésorerie tendue / pas de prévisionnel" fb_texts)
    (add "Prévisionnel & cash management" "gestion" "Haute"
       "Immédiat (≤ 3 mois)" 5 "Tension de trésorerie") ;;

  when (str_in "Exposition réglementaire environnementale élevée" m_texts
        || rse_sensible p)
    (add "Diagnostic RSE & plan d'actions" "rse" "Moyenne" "6-12 mois" 3
       "Enjeux RSE / environnementaux") ;;
  when (str_in "Dépendance à un client majeur" m_texts)
    (add "Plan de diversification commerciale" "eco_strat" "Moyenne"
       "6-12 mois" 4 "Risque de dépendance client") ;;
  when (str_in "Complexité BTP (retenues, situations, DGD)" m_texts)
    (add "Mise en place suivi chantiers / DGD" "btp" "Moyenne" "6-12 mois" 3
       "Spécificités BTP") ;;
  when (str_in "TVA plateformes / marketplace (OSS/IOSS)" m_texts)
    (add "Revue TVA (OSS/IOSS) & procédures" "international" "Haute"
       "Immédiat (≤ 3 mois)" 4 "Risque TVA marketplaces") ;;

  (* Opportunités *)
  when (any_texte_contains "Préparer la transmission / retraite dirigeant"
          (swot_get "Opportunités" swot))
    (add "Bilan retraite & pré-étude de transmission" "patrimonial" "Moyenne"
       "6-12 mois" 3 "Fenêtre d'opportunité transmission") ;;
  when (any_texte_contains "Optimisation patrimoniale"
          (swot_get "Opportunités" swot))
    (add "Bilan patrimonial dirigeant" "patrimonial" "Moyenne" "6-12 mois" 3
       "Patrimoine dirigeant important") ;;
  when (any_texte_contains "Développement export"
          (swot_get "Opportunités" swot))
    (add "Diagnostic international (TVA / flux / implantations)"
       "international" "Moyenne" "6-12 mois" 3 "Opportunité export") ;;
  when (any_texte_contains "Valorisation via la démarche RSE"
          (swot_get "Opportunités" swot))
    (add "Reporting extra-financier simplifié" "rse" "Basse" "> 12 mois" 2
       "Créer de la valeur via RSE") ;;

  (* Social / RH (induit par taille/obligations) *)
  when (str_in (taille p) ["11-49"; "50-249"; "250+"])
    (if negb (presence_cadres p)
     then add "Audit social & mise en conformité (CSE, DUERP...)" "social"
            "Haute" "Immédiat (≤ 3 mois)" 4 "Obligations sociales renforcées"
     else add "Optimisation processus paie/RH" "social" "Moyenne"
            "6-12 mois" 3 "Effectif significatif") ;;

  (* Fiscal — détection via ecommerce/international *)
  when (ecommerce_plateformes p
        || str_in (exposition_internationale p)
             ["Occasionnelle"; "Régulière/Structurée"])
    (add "Revue fiscale ciblée (TVA, prix de transfert simplifiés)" "fiscal"
       "Moyenne" "6-12 mois" 3 "Flux e-commerce/internationaux") ;;

  (* Gestion — si nb de banques > 1, reporting absent ou trésorerie tendue *)
  when ((1 <? nb_banques p) && negb (reporting_mensuel p)
        || tresorerie_tendue p)
    (add "Centralisation banques & rapprochements automatiques" "digital"
       "Moyenne" "6-12 mois" 3 "Multiples banques sans process outillé") ;;

  (* Éco/Stratégie — croissance, marge, dépendance *)
  when (str_in (croissance p) ["En baisse"; "Stable"]
        && negb (marge p =? "Confortable")%string)
    (add "Diagnostic stratégique (marché/offre/organisation)" "eco_strat"
       "Moyenne" "6-12 mois" 4 "Performance perfectible").

(** The key under which the deduplication loop remembers a need. *)
Definition need_key (n : Need) : string * string := (besoin n, service n).

(** One turn of the loop [for n in needs:] over the pair
    ([unique], [seen]). *)
Definition dedup_step (st : list Need * gset (string * string)) (n : Need)
    : list Need * gset (string * string) :=
  let '(unique, seen) := st in
  let key := need_key n in
  if decide (key ∈ seen) then (unique, seen)
  else (unique ++ [n], seen ∪ {[ key ]}).

(** Déduplication & consolidation *)
Definition dedup (needs : list Need) : list Need :=
  fst (fold_left dedup_step needs ([], ∅)).

Definition detect_needs (p : ClientProfile) (swot : Swot)
    : Result (list Need) :=
  match generate p swot [] with
  | Ok (_, needs) => Ok (dedup needs)
  | KeyError k => KeyError k
  end.

(** [detect_needs] with the last block (the deduplication) left out. *)
Definition detect_needs_no_dedup (p : ClientProfile) (swot : Swot)
    : Result (list Need) :=
  match generate p swot [] with
  | Ok (_, needs) => Ok needs
  | KeyError k => KeyError k
  end.

(** The profile the form shows before any input. *)
Definition demo : ClientProfile := {|
  nom := "Client DEMO"; secteur := "Services"; taille := "1-10";
  digital := "Informatique rudimentaire"; impact_env := "Faible/Non";
  rse_sensible := false; presence_cadres := false;
  exposition_internationale := "Aucune";
  dependance_client := "Faible (<20%)"; croissance := "Stable";
  marge := "Correcte"; tresorerie_tendue := false;
  reporting_mensuel := false; nb_banques := 1;
  proche_retraite := "Loin (> 5 ans)"; succession_envisagee := false;
  patrimoine_dirigeant_important := false; btp_specifique := false;
  ecommerce_plateformes := false; risques_juridiques := false;
  notes := EmptyString |}.

(** A profile is well formed when every field with a closed vocabulary
    holds one of its values and the count of banks is not negative: what
    the form guarantees for the profiles it builds. *)
Definition well_formed (p : ClientProfile) : Prop :=
  str_in (secteur p) SECTEURS = true /\
  str_in (taille p) TAILLE = true /\
  str_in (digital p) DIGITAL = true /\
  str_in (impact_env p) IMPACT_ENV = true /\
  str_in (exposition_internationale p) EXPO_INTERNATIONAL = true /\
  str_in (dependance_client p) DEPENDANCE_CLIENT = true /\
  str_in (croissance p) CROISSANCE = true /\
  str_in (marge p) MARGE = true /\
  str_in (proche_retraite p) HORIZON_RETRAITE = true /\
  0 <= nb_banques p.

(** ** The rule list of the classifier, as the specification gives it *)

Inductive Category := Strength | Weakness | Opportunity | Threat.

Definition Category_eqb (a b : Category) : bool :=
  match a, b with
  | Strength, Strength | Weakness, Weakness
  | Opportunity, Opportunity | Threat, Threat => true
  | _, _ => false
  end.

(** The key of a category in the SWOT dict, and the tag its observations
    carry. *)
Definition category_key (c : Category) : string :=
  match c with
  | Strength => "Forces"
  | Weakness => "Faiblesses"
  | Opportunity => "Opportunités"
  | Threat => "Menaces"
  end.

Definition category_type (c : Category) : string :=
  match c with
  | Strength => "Force"
  | Weakness => "Faiblesse"
  | Opportunity => "Opportunité"
  | Threat => "Menace"
  end.

Record Rule := {
  rule_pred : ClientProfile -> bool;
  rule_cat : Category;
  rule_text : string
}.

(** Section 4.1, rule by rule and in its order, with the observation
    texts written there.  The values of the enumerations are the strings
    of the catalogues. *)
Definition classifier_rules_spec : list Rule :=
  [ {| rule_pred := fun p => (digital p =? "Informatique avancée")%string;
       rule_cat := Strength; rule_text := "Digitalisation avancée" |};
    {| rule_pred := fun p => reporting_mensuel p;
       rule_cat := Strength; rule_text := "Reporting mensuel en place" |};
    {| rule_pred := fun p => (marge p =? "Confortable")%string;
       rule_cat := Strength; rule_text := "Marge confortable" |};
    {| rule_pred := fun p => (croissance p =? "En croissance")%string;
       rule_cat := Strength; rule_text := "Croissance du CA" |};
    {| rule_pred := fun p => (digital p =? "Pas informatique")%string;
       rule_cat := Weakness; rule_text := "Maturité digitale faible" |};
    {| rule_pred := fun p => negb (reporting_mensuel p);
       rule_cat := Weakness; rule_text := "Absence de reporting" |};
    {| rule_pred := fun p => (marge p =? "Faible")%string;
       rule_cat := Weakness; rule_text := "Marge insuffisante" |};
    {| rule_pred := fun p => tresorerie_tendue p;
       rule_cat := Weakness; rule_text := "Trésorerie tendue" |};
    {| rule_pred := fun p => str_in (proche_retraite p) ["À 5 ans"; "< 2 ans"];
       rule_cat := Opportunity; rule_text := "Préparer transmission" |};
    {| rule_pred := fun p => patrimoine_dirigeant_important p;
       rule_cat := Opportunity; rule_text := "Optimisation patrimoniale" |};
    {| rule_pred := fun p => rse_sensible p;
       rule_cat := Opportunity; rule_text := "Valorisation RSE/CSRD" |};
    {| rule_pred := fun p =>
         str_in (exposition_internationale p)
           ["Occasionnelle"; "Régulière/Structurée"];
       rule_cat := Opportunity; rule_text := "Développement export" |};
    {| rule_pred := fun p => (impact_env p =? "Importante")%string;
       rule_cat := Threat;
       rule_text := "Exposition réglementaire environnementale" |};
    {| rule_pred := fun p => (dependance_client p =? "Forte (>40%)")%string;
       rule_cat := Threat; rule_text := "Dépendance client majeur" |};
    {| rule_pred := fun p => risques_juridiques p;
       rule_cat := Threat; rule_text := "Litiges/risques juridiques" |};
    {| rule_pred := fun p =>
         str_in (taille p) ["11-49"; "50-249"; "250+"]
         && negb (presence_cadres p);
       rule_cat := Threat; rule_text := "Obligations sociales renforcées" |};
    {| rule_pred := fun p => (secteur p =? "BTP")%string || btp_specifique p;
       rule_cat := Threat; rule_text := "Complexité BTP" |};
    {| rule_pred := fun p => ecommerce_plateformes p;
       rule_cat := Threat; rule_text := "TVA plateformes marketplace" |} ].

(** The observation texts of the source, in the order of its rules. *)
Definition source_texts : list string :=
  [ "Digitalisation avancée (intégrations possibles)";
    "Reporting financier mensuel déjà en place";
    "Marge confortable";
    "Croissance du CA";
    "Maturité digitale faible (risque d'erreurs/coûts)";
    "Absence de reporting/indicateurs réguliers";
    "Marge insuffisante / prix de revient non maîtrisé";
    "Trésorerie tendue / pas de prévisionnel";
    "Préparer la transmission / retraite dirigeant";
    "Optimisation patrimoniale (holding/SCI/PEA-PME, etc.)";
    "Valorisation via la démarche RSE / CSRD adaptée";
    "Développement export / structuration internationale";
    "Exposition réglementaire environnementale élevée";
    "Dépendance à un client majeur";
    "Litiges / risques juridiques non traités";
    "Obligations sociales renforcées sans structuration RH";
    "Complexité BTP (retenues, situations, DGD)";
    "TVA plateformes / marketplace (OSS/IOSS)" ].

Definition set_text (r : Rule) (t : string) : Rule :=
  {| rule_pred := rule_pred r; rule_cat := rule_cat r; rule_text := t |}.

(** The rules of section 4.1 with, for each, the text of the source in
    place of the text of the specification: same predicates, same
    categories, same order. *)
Definition classifier_rules : list Rule :=
  zip_with set_text classifier_rules_spec source_texts.

(** What a rule contributes to the category [c] for the profile [p]. *)
Definition fire (p : ClientProfile) (c : Category) (r : Rule) : list Obs :=
  if Category_eqb (rule_cat r) c && rule_pred r p
  then [ {| type := category_type c; texte := rule_text r |} ]
  else [].

(** Running a rule list: the categories in the order Strengths,
    Weaknesses, Opportunities, Threats, each holding the observations of
    its satisfied rules in the order of the list. *)
Definition classify_with (rules : list Rule) (p : ClientProfile) : Swot :=
  map (fun c => (category_key c, flat_map (fire p c) rules))
    [Strength; Weakness; Opportunity; Threat].

(** ** The rule table of the need deriver, as the specification gives it *)

Inductive Priority := High | Medium | Low.
Inductive Deadline := Immediate | Months6to12 | Over12Months.

(** The labels of [PRIORITES] and [ECHEANCES], position by position. *)
Definition priority_label (x : Priority) : string :=
  match x with High => "Haute" | Medium => "Moyenne" | Low => "Basse" end.
Definition deadline_label (d : Deadline) : string :=
  match d with
  | Immediate => "Immédiat (≤ 3 mois)"
  | Months6to12 => "6-12 mois"
  | Over12Months => "> 12 mois"
  end.

(** An observation text is present in a category of a classification. *)
Definition present (c : Category) (text : string) (swot : Swot) : bool :=
  str_in text (map texte (swot_get (category_key c) swot)).

(** The rank of a size band in [TAILLE]; [size band >= 11] is rank 2 and
    above. *)
Fixpoint rank (x : string) (l : list string) : option nat :=
  match l with
  | [] => None
  | y :: rest => if String.eqb x y then Some O else S <$> rank x rest
  end.

Definition size_at_least_11 (p : ClientProfile) : bool :=
  match rank (taille p) TAILLE with
  | Some i => (2 <=? i)%nat
  | None => false
  end.

Record NeedRule := {
  nr_cond : ClientProfile -> Swot -> bool;
  nr_besoin : string;
  nr_dept : string;
  nr_priority : Priority;
  nr_deadline : Deadline;
  nr_impact : Z;
  nr_justif : string
}.

(** Section 4.2, row by row and in its order: condition, department key,
    priority, deadline and impact are the columns of the table.  The
    table has no column for the description and the rationale; they hold
    the literals of the source.  An observation is named by its text in
    the source. *)
Definition need_rule_table_spec : list NeedRule :=
  [ {| nr_cond := fun p swot =>
         present Weakness "Maturité digitale faible (risque d'erreurs/coûts)" swot;
       nr_besoin := "Cartographie & plan de digitalisation";
       nr_dept := "digital"; nr_priority := Medium;
       nr_deadline := Months6to12; nr_impact := 3;
       nr_justif := "Digitalisation faible détectée" |};
    {| nr_cond := fun p swot =>
         present Weakness "Absence de reporting/indicateurs réguliers" swot;
       nr_besoin := "Mise en place de tableaux de bord mensuels";
       nr_dept := "gestion"; nr_priority := High;
       nr_deadline := Immediate; nr_impact := 4;
       nr_justif := "Absence de pilotage mensuel" |};
    {| nr_cond := fun p swot =>
         present Weakness "Marge insuffisante / prix de revient non maîtrisé" swot;
       nr_besoin := "Étude prix de revient & politique de pricing";
       nr_dept := "eco_strat"; nr_priority := High;
       nr_deadline := Immediate; nr_impact := 5;
       nr_justif := "Marge insuffisante" |};
    {| nr_cond := fun p swot =>
         present Weakness "Trésorerie tendue / pas de prévisionnel" swot;
       nr_besoin := "Prévisionnel & cash management";
       nr_dept := "gestion"; nr_priority := High;
       nr_deadline := Immediate; nr_impact := 5;
       nr_justif := "Tension de trésorerie" |};
    {| nr_cond := fun p swot =>
         present Threat "Exposition réglementaire environnementale élevée" swot
         || rse_sensible p;
       nr_besoin := "Diagnostic RSE & plan d'actions";
       nr_dept := "rse"; nr_priority := Medium;
       nr_deadline := Months6to12; nr_impact := 3;
       nr_justif := "Enjeux RSE / environnementaux" |};
    {| nr_cond := fun p swot =>
         present Threat "Dépendance à un client majeur" swot;
       nr_besoin := "Plan de diversification commerciale";
       nr_dept := "eco_strat"; nr_priority := Medium;
       nr_deadline := Months6to12; nr_impact := 4;
       nr_justif := "Risque de dépendance client" |};
    {| nr_cond := fun p swot =>
         present Threat "Complexité BTP (retenues, situations, DGD)" swot;
       nr_besoin := "Mise en place suivi chantiers / DGD";
       nr_dept := "btp"; nr_priority := Medium;
       nr_deadline := Months6to12; nr_impact := 3;
       nr_justif := "Spécificités BTP" |};
    {| nr_cond := fun p swot =>
         present Threat "TVA plateformes / marketplace (OSS/IOSS)" swot;
       nr_besoin := "Revue TVA (OSS/IOSS) & procédures";
       nr_dept := "international"; nr_priority := High;
       nr_deadline := Immediate; nr_impact := 4;
       nr_justif := "Risque TVA marketplaces" |};
    {| nr_cond := fun p swot =>
         present Opportunity "Préparer la transmission / retraite dirigeant" swot;
       nr_besoin := "Bilan retraite & pré-étude de transmission";
       nr_dept := "patrimonial"; nr_priority := Medium;
       nr_deadline := Months6to12; nr_impact := 3;
       nr_justif := "Fenêtre d'opportunité transmission" |};
    {| nr_cond := fun p swot =>
         present Opportunity
           "Optimisation patrimoniale (holding/SCI/PEA-PME, etc.)" swot;
       nr_besoin := "Bilan patrimonial dirigeant";
       nr_dept := "patrimonial"; nr_priority := Medium;
       nr_deadline := Months6to12; nr_impact := 3;
       nr_justif := "Patrimoine dirigeant important" |};
    {| nr_cond := fun p swot =>
         present Opportunity
           "Développement export / structuration internationale" swot;
       nr_besoin := "Diagnostic international (TVA / flux / implantations)";
       nr_dept := "international"; nr_priority := Medium;
       nr_deadline := Months6to12; nr_impact := 3;
       nr_justif := "Opportunité export" |};
    {| nr_cond := fun p swot =>
         present Opportunity
           "Valorisation via la démarche RSE / CSRD adaptée" swot;
       nr_besoin := "Reporting extra-financier simplifié";
       nr_dept := "rse"; nr_priority := Low;
       nr_deadline := Over12Months; nr_impact := 2;
       nr_justif := "Créer de la valeur via RSE" |};
    {| nr_cond := fun p swot => size_at_least_11 p && negb (presence_cadres p);
       nr_besoin := "Audit social & mise en conformité (CSE, DUERP...)";
       nr_dept := "social"; nr_priority := High;
       nr_deadline := Immediate; nr_impact := 4;
       nr_justif := "Obligations sociales renforcées" |};
    {| nr_cond := fun p swot => size_at_least_11 p && presence_cadres p;
       nr_besoin := "Optimisation processus paie/RH";
       nr_dept := "social"; nr_priority := Medium;
       nr_deadline := Months6to12; nr_impact := 3;
       nr_justif := "Effectif significatif" |};
    {| nr_cond := fun p swot =>
         ecommerce_plateformes p
         || negb (exposition_internationale p =? "Aucune")%string;
       nr_besoin := "Revue fiscale ciblée (TVA, prix de transfert simplifiés)";
       nr_dept := "fiscal"; nr_priority := Medium;
       nr_deadline := Months6to12; nr_impact := 3;
       nr_justif := "Flux e-commerce/internationaux" |};
    {| nr_cond := fun p swot =>
         (1 <? nb_banques p) && negb (reporting_mensuel p)
         || tresorerie_tendue p;
       nr_besoin := "Centralisation banques & rapprochements automatiques";
       nr_dept := "digital"; nr_priority := Medium;
       nr_deadline := Months6to12; nr_impact := 3;
       nr_justif := "Multiples banques sans process outillé" |};
    {| nr_cond := fun p swot =>
         str_in (croissance p) ["En baisse"; "Stable"]
         && negb (marge p =? "Confortable")%string;
       nr_besoin := "Diagnostic stratégique (marché/offre/organisation)";
       nr_dept := "eco_strat"; nr_priority := Medium;
       nr_deadline := Months6to12; nr_impact := 4;
       nr_justif := "Performance perfectible" |} ].

(** The display name of a department key. *)
Definition service_label (k : string) : string :=
  default EmptyString (SERVICES !! k).

(** The [Need] a row of the table stands for. *)
Definition need_of_rule (r : NeedRule) : Need :=
  {| besoin := nr_besoin r;
     service := service_label (nr_dept r);
     priorite := priority_label (nr_priority r);
     echeance := deadline_label (nr_deadline r);
     impact := nr_impact r;
     justification := nr_justif r |}.

(** The needs of the rows whose condition holds, in the order of the
    table, one need for each such row. *)
Definition run_table (table : list NeedRule) (p : ClientProfile)
    (swot : Swot) : list Need :=
  flat_map (fun r => if nr_cond r p swot then [need_of_rule r] else []) table.

(** Every need a rule of [generate] can append. *)
Definition all_needs : list Need := map need_of_rule need_rule_table_spec.

(** ** Deduplication, as the specification words it *)

(** An entry is kept exactly when its (description, department) pair is
    not the pair of an earlier entry; [earlier] holds the pairs of the
    entries gone by. *)
Fixpoint first_occurrences_after (earlier : list (string * string))
    (l : list Need) : list Need :=
  match l with
  | [] => []
  | n :: rest =>
      (if decide (need_key n ∈ earlier) then [] else [n])
      ++ first_occurrences_after (need_key n :: earlier) rest
  end.

Definition first_occurrences (l : list Need) : list Need :=
  first_occurrences_after [] l.

(** ** Validity of a need *)

Definition need_valid (n : Need) : Prop :=
  (exists k, SERVICES !! k = Some (service n)) /\
  priorite n ∈ PRIORITES /\
  echeance n ∈ ECHEANCES /\
  1 <= impact n <= 5.

(** ** The needs named in the scenarios of the specification *)

Definition need_digital_plan : Need :=
  {| besoin := "Cartographie & plan de digitalisation";
     service := "Pôle Digitalisation"; priorite := "Moyenne";
     echeance := "6-12 mois"; impact := 3;
     justification := "Digitalisation faible détectée" |}.

Definition need_dashboards : Need :=
  {| besoin := "Mise en place de tableaux de bord mensuels";
     service := "Pôle Gestion / Contrôle de gestion"; priorite := "Haute";
     echeance := "Immédiat (≤ 3 mois)"; impact := 4;
     justification := "Absence de pilotage mensuel" |}.

Definition need_pricing_study : Need :=
  {| besoin := "Étude prix de revient & politique de pricing";
     service := "Pôle Conseil Éco & Stratégie"; priorite := "Haute";
     echeance := "Immédiat (≤ 3 mois)"; impact := 5;
     justification := "Marge insuffisante" |}.

Definition need_cash_management : Need :=
  {| besoin := "Prévisionnel & cash management";
     service := "Pôle Gestion / Contrôle de gestion"; priorite := "Haute";
     echeance := "Immédiat (≤ 3 mois)"; impact := 5;
     justification := "Tension de trésorerie" |}.

Definition need_social_audit : Need :=
  {| besoin := "Audit social & mise en conformité (CSE, DUERP...)";
     service := "Service Paie & RH"; priorite := "Haute";
     echeance := "Immédiat (≤ 3 mois)"; impact := 4;
     justification := "Obligations sociales renforcées" |}.

(** The needs routed to the social department. *)
Definition is_social (n : Need) : bool :=
  (service n =? "Service Paie & RH")%string.

(** ** The scenarios of the specification *)

(** Scenario 1: no digital tooling, no monthly reporting, a low margin,
    strained cash; the rest as in [demo]. *)
Definition scenario1 : ClientProfile := {|
  nom := "Client DEMO"; secteur := "Services"; taille := "1-10";
  digital := "Pas informatique"; impact_env := "Faible/Non";
  rse_sensible := false; presence_cadres := false;
  exposition_internationale := "Aucune";
  dependance_client := "Faible (<20%)"; croissance := "Stable";
  marge := "Faible"; tresorerie_tendue := true;
  reporting_mensuel := false; nb_banques := 1;
  proche_retraite := "Loin (> 5 ans)"; succession_envisagee := false;
  patrimoine_dirigeant_important := false; btp_specifique := false;
  ecommerce_plateformes := false; risques_juridiques := false;
  notes := EmptyString |}.

(** Scenario 2: 50 to 249 employees and no structured HR; the rest as in
    [demo]. *)
Definition scenario2 : ClientProfile := {|
  nom := "Client DEMO"; secteur := "Services"; taille := "50-249";
  digital := "Informatique rudimentaire"; impact_env := "Faible/Non";
  rse_sensible := false; presence_cadres := false;
  exposition_internationale := "Aucune";
  dependance_client := "Faible (<20%)"; croissance := "Stable";
  marge := "Correcte"; tresorerie_tendue := false;
  reporting_mensuel := false; nb_banques := 1;
  proche_retraite := "Loin (> 5 ans)"; succession_envisagee := false;
  patrimoine_dirigeant_important := false; btp_specifique := false;
  ecommerce_plateformes := false; risques_juridiques := false;
  notes := EmptyString |}.

(** A profile with advanced digital tooling; the rest as in [demo]. *)
Definition advanced : ClientProfile := {|
  nom := "Client DEMO"; secteur := "Services"; taille := "1-10";
  digital := "Informatique avancée"; impact_env := "Faible/Non";
  rse_sensible := false; presence_cadres := false;
  exposition_internationale := "Aucune";
  dependance_client := "Faible (<20%)"; croissance := "Stable";
  marge := "Correcte"; tresorerie_tendue := false;
  reporting_mensuel := false; nb_banques := 1;
  proche_retraite := "Loin (> 5 ans)"; succession_envisagee := false;
  patrimoine_dirigeant_important := false; btp_specifique := false;
  ecommerce_plateformes := false; risques_juridiques := false;
  notes := EmptyString |}.

(** ** The export and notification layer *)

(** The rest of [app.py]: the table of needs handed to the editor, the
    drafts of e-mails and the names of the members of the archive.

    - A value of a table cell or of a row dict is a string, an integer or
      a boolean ([Dict[str, Any]]); [py_str] is its rendering in an
      f-string.
    - A row is a dict from column names to values; a [DataFrame] is its
      column names, in order, and its rows.
    - [textwrap.dedent] is a function of the Python library: it is a
      parameter of [make_email].
    - Of [zip_emails], the members written to the archive are modelled,
      name and content, not the compressed bytes. *)

Definition DEFAULT_RECIPIENTS_items : list (string * string) :=
  [("social", "service-paie@cabinet.com");
   ("fiscal", "pole-fiscal@cabinet.com");
   ("patrimonial", "conseil-patrimonial@cabinet.com");
   ("rse", "rse@cabinet.com");
   ("eco_strat", "eco-strategie@cabinet.com");
   ("gestion", "controle-gestion@cabinet.com");
   ("digital", "digital@cabinet.com");
   ("international", "international@cabinet.com");
   ("btp", "btp@cabinet.com")].

Definition DEFAULT_RECIPIENTS : gmap string string :=
  list_to_map DEFAULT_RECIPIENTS_items.

Inductive Value : Type :=
  | VStr (s : string)
  | VInt (z : Z)
  | VBool (b : bool).

(** [str(v)], as an f-string renders [{v}]. *)
Definition py_str (v : Value) : string :=
  match v with
  | VStr s => s
  | VInt z => DecimalString.NilZero.string_of_int (Z.to_int z)
  | VBool true => "True"
  | VBool false => "False"
  end.

(** [label == v] for a string [label]. *)
Definition str_eq_value (label : string) (v : Value) : bool :=
  match v with
  | VStr s => String.eqb label s
  | _ => false
  end.

(** [v == True] *)
Definition is_True (v : Value) : bool :=
  match v with
  | VBool b => b
  | VInt z => (z =? 1)%Z
  | VStr _ => false
  end.

Abbreviation Row := (gmap string Value).

Record DataFrame := { columns : list string; rows : list Row }.

#[export] Instance Result_ret : MRet Result := fun A a => Ok a.
#[export] Instance Result_bind : MBind Result := fun A B f m =>
  match m with
  | Ok a => f a
  | KeyError k => KeyError k
  end.

(** [row[k]] *)
Definition getitem (row : Row) (k : string) : Result Value :=
  match row !! k with
  | Some v => Ok v
  | None => KeyError k
  end.

(** The fields of the dataclass [Need], in its order. *)
Definition Need_fields : list string :=
  ["besoin"; "service"; "priorite"; "echeance"; "impact"; "justification"].

(** [asdict(n)] *)
Definition asdict (n : Need) : Row :=
  list_to_map
    [("besoin", VStr (besoin n)); ("service", VStr (service n));
     ("priorite", VStr (priorite n)); ("echeance", VStr (echeance n));
     ("impact", VInt (impact n)); ("justification", VStr (justification n))].

(** [pd.DataFrame(data)] for records that all carry the keys [fields],
    in this order; with no record the frame has no column. *)
Definition DataFrame_of_records (fields : list string) (data : list Row)
    : DataFrame :=
  {| columns := match data with [] => [] | _ :: _ => fields end;
     rows := data |}.

(** [df.empty]: no row or no column. *)
Definition df_empty (df : DataFrame) : bool :=
  match rows df, columns df with
  | [], _ | _, [] => true
  | _ :: _, _ :: _ => false
  end.

(** [df[c] = v] for a scalar [v]. *)
Definition set_column (c : string) (v : Value) (df : DataFrame) : DataFrame :=
  {| columns := if str_in c (columns df) then columns df
                else columns df ++ [c];
     rows := map (insert c v) (rows df) |}.

Definition needs_to_dataframe (needs : list Need) : DataFrame :=
  let data := map asdict needs in
  let df := DataFrame_of_records Need_fields data in
  if negb (df_empty df)
  then set_column "Envoyer ?" (VBool true) df
  else {| columns := ["besoin"; "service"; "priorite"; "echeance"; "impact";
                      "justification"; "Envoyer ?"];
          rows := [] |}.

Record Email := { to : string; subject : string; body : string; eml : string }.

(** The line feed. *)
Definition nl : string := String (ascii_of_nat 10) EmptyString.

Section Email.

Variable dedent : string -> string.

Definition make_email (service_email client_name : string) (row : Row)
    : Result Email :=
  besoin ← getitem row "besoin";
  priorite ← getitem row "priorite";
  echeance ← getitem row "echeance";
  let subject :=
    ("[DIAG] " ++ client_name ++ " — " ++ py_str besoin ++ " ("
     ++ py_str priorite ++ ", " ++ py_str echeance ++ ")")%string in
  service ← getitem row "service";
  besoin ← getitem row "besoin";
  priorite ← getitem row "priorite";
  echeance ← getitem row "echeance";
  impact ← getitem row "impact";
  justification ← getitem row "justification";
  let body_lines :=
    [ ("Service concerné : " ++ py_str service)%string;
      ("Client : " ++ client_name)%string;
      ("Besoin : " ++ py_str besoin)%string;
      ("Priorité : " ++ py_str priorite ++ " | Échéance : "
       ++ py_str echeance ++ " | Impact : " ++ py_str impact ++ "/5")%string;
      ("Justification : " ++ py_str justification)%string;
      EmptyString;
      "Merci de revenir vers le chargé de dossier pour planifier la prise en charge." ] in
  let body := String.concat nl body_lines in
  (* .eml minimal (brouillon local) *)
  let eml :=
    dedent
      ("    From: diagnostic@cabinet.com" ++ nl
       ++ "    To: " ++ service_email ++ nl
       ++ "    Subject: " ++ subject ++ nl
       ++ "    MIME-Version: 1.0" ++ nl
       ++ "    Content-Type: text/plain; charset=UTF-8" ++ nl
       ++ nl
       ++ "    " ++ body ++ nl
       ++ "    ")%string in
  mret {| to := service_email; subject := subject; body := body; eml := eml |}.

(** The inner loop over [SERVICES.items()]: the first key whose display
    name is the service of the row gives the address, the one typed for
    the key or else its default. *)
Fixpoint find_recipient (items : list (string * string))
    (recipients : gmap string string) (row : Row) : Result (option string) :=
  match items with
  | [] => mret None
  | (key, label) :: rest =>
      v ← getitem row "service";
      if str_eq_value label v
      then
        d ← match DEFAULT_RECIPIENTS !! key with
            | Some d => Ok d
            | None => KeyError key
            end;
        mret (Some (default d (recipients !! key)))
      else find_recipient rest recipients row
  end.

(** The address a row is sent to: [info@cabinet.com] when none was
    found, or an empty one. *)
Definition resolve_recipient (recipients : gmap string string) (row : Row)
    : Result string :=
  svc_email ← find_recipient SERVICES_items recipients row;
  mret match svc_email with
       | Some (String c r) => String c r
       | Some EmptyString | None => "info@cabinet.com"
       end.

(** [edited[edited["Envoyer ?"] == True] if not edited.empty else edited] *)
Definition to_send (edited : DataFrame) : Result DataFrame :=
  if negb (df_empty edited)
  then
    if str_in "Envoyer ?" (columns edited)
    then Ok {| columns := columns edited;
               rows := List.filter
                         (fun row => match row !! "Envoyer ?" with
                                     | Some v => is_True v
                                     | None => false
                                     end) (rows edited) |}
    else KeyError "Envoyer ?"
  else Ok edited.

(** The loop over the rows to send. *)
Fixpoint emails_of_rows (recipients : gmap string string) (client_name : string)
    (l : list Row) : Result (list Email) :=
  match l with
  | [] => mret []
  | row :: rest =>
      svc_email ← resolve_recipient recipients row;
      em ← make_email svc_email client_name row;
      ems ← emails_of_rows recipients client_name rest;
      mret (em :: ems)
  end.

(** The e-mails drafted from the edited table; none when there is
    nothing to send. *)
Definition draft_emails (recipients : gmap string string)
    (client_name : string) (edited : DataFrame) : Result (list Email) :=
  ts ← to_send edited;
  if df_empty ts then mret []
  else emails_of_rows recipients client_name (rows ts).

End Email.

(** [swot[bloc]] *)
Fixpoint swot_getitem (k : string) (swot : Swot) : Result (list Obs) :=
  match swot with
  | [] => KeyError k
  | (k', v) :: rest => if String.eqb k k' then Ok v else swot_getitem k rest
  end.

(** The part of the synthesis on the classification: for each category
    its heading, its observations or [- (néant)], and an empty line. *)
Fixpoint md_swot (blocs : list string) (swot : Swot) : Result (list string) :=
  match blocs with
  | [] => mret []
  | bloc :: rest =>
      obs ← swot_getitem bloc swot;
      let lines :=
        ("### " ++ bloc)%string
        :: match obs with
           | [] => ["- (néant)"]
           | _ :: _ => map (fun x => ("- " ++ texte x)%string) obs
           end
        ++ [EmptyString] in
      more ← md_swot rest swot;
      mret (lines ++ more)
  end.

(** The part of the synthesis on the needs: two lines for each row. *)
Fixpoint md_rows (l : list Row) : Result (list string) :=
  match l with
  | [] => mret []
  | row :: rest =>
      besoin ← getitem row "besoin";
      service ← getitem row "service";
      priorite ← getitem row "priorite";
      echeance ← getitem row "echeance";
      impact ← getitem row "impact";
      justification ← getitem row "justification";
      more ← md_rows rest;
      mret (("- **" ++ py_str besoin ++ "** → _" ++ py_str service
             ++ "_ — **" ++ py_str priorite ++ "**, " ++ py_str echeance
             ++ " (impact " ++ py_str impact ++ "/5)")%string
            :: ("  - Justification : " ++ py_str justification)%string
            :: more)
  end.

(** The lines of the Markdown synthesis; [today] is
    [datetime.date.today().isoformat()]. *)
Definition md_lines (client_name today : string) (swot : Swot)
    (edited : DataFrame) : Result (list string) :=
  let head :=
    [ ("# Diagnostic & besoins — " ++ client_name)%string; EmptyString;
      ("_Date : " ++ today ++ "_")%string; EmptyString;
      "## SWOT (orienté besoins)" ] in
  s ← md_swot ["Forces"; "Faiblesses"; "Opportunités"; "Menaces"] swot;
  n ← (if negb (df_empty edited) then md_rows (rows edited)
       else mret ["- (aucun)"]);
  mret (head ++ s ++ ["## Besoins & rattachement services"] ++ n).

(** [md = "\n".join(md_lines)] *)
Definition md (client_name today : string) (swot : Swot) (edited : DataFrame)
    : Result string :=
  lines ← md_lines client_name today swot edited;
  mret (String.concat nl lines).


(** The first item whose display name is the value [v]. *)
Definition first_match (v : Value) (items : list (string * string))
    : option (string * string) :=
  List.find (fun kl => str_eq_value kl.2 v) items.

(** The fallback address applies to no address and to the empty one. *)
Definition or_fallback (e : option string) : string :=
  match e with
  | Some (String c r) => String c r
  | Some EmptyString | None => "info@cabinet.com"
  end.

(** What a need is sent as: to the default address of its department,
    under a subject that names the client and the need. *)
Definition drafted (client_name : string) (n : Need) (em : Email) : Prop :=
  (exists k, SERVICES !! k = Some (service n)
             /\ DEFAULT_RECIPIENTS !! k = Some (to em))
  /\ to em <> "info@cabinet.com"
  /\ subject em
     = ("[DIAG] " ++ client_name ++ " — " ++ besoin n ++ " ("
        ++ priorite n ++ ", " ++ echeance n ++ ")")%string.







(** ** Profiles used by the further properties *)

(** The profile [p] with its legal-risk flag set to [b]. *)
Definition set_risques_juridiques (b : bool) (p : ClientProfile)
    : ClientProfile :=
  {| nom := nom p; secteur := secteur p; taille := taille p;
     digital := digital p; impact_env := impact_env p;
     rse_sensible := rse_sensible p; presence_cadres := presence_cadres p;
     exposition_internationale := exposition_internationale p;
     dependance_client := dependance_client p; croissance := croissance p;
     marge := marge p; tresorerie_tendue := tresorerie_tendue p;
     reporting_mensuel := reporting_mensuel p; nb_banques := nb_banques p;
     proche_retraite := proche_retraite p;
     succession_envisagee := succession_envisagee p;
     patrimoine_dirigeant_important := patrimoine_dirigeant_important p;
     btp_specifique := btp_specifique p;
     ecommerce_plateformes := ecommerce_plateformes p;
     risques_juridiques := b; notes := notes p |}.

(** A profile on which every rule of the deriver that can fire does. *)
Definition loaded : ClientProfile := {|
  nom := "Client DEMO"; secteur := "BTP"; taille := "11-49";
  digital := "Pas informatique"; impact_env := "Importante";
  rse_sensible := true; presence_cadres := false;
  exposition_internationale := "Occasionnelle";
  dependance_client := "Forte (>40%)"; croissance := "Stable";
  marge := "Faible"; tresorerie_tendue := true;
  reporting_mensuel := false; nb_banques := 2;
  proche_retraite := "< 2 ans"; succession_envisagee := true;
  patrimoine_dirigeant_important := true; btp_specifique := true;
  ecommerce_plateformes := true; risques_juridiques := true;
  notes := EmptyString |}.

(** ** Auxiliary definitions *)

(** A statement emits [l] when, from any list [needs], it succeeds and
    leaves [needs ++ l]. *)
Definition emits (m : M unit) (l : list Need) : Prop :=
  forall needs, m needs = Ok (tt, needs ++ l).

(** The list [needs] as it stands before the deduplication. *)
Definition generated (p : ClientProfile) (swot : Swot) : list Need :=
  match generate p swot [] with
  | Ok (_, needs) => needs
  | KeyError _ => []
  end.

(** The executable form of [need_valid]. *)
Definition need_validb (n : Need) : bool :=
  existsb (fun kv => String.eqb (snd kv) (service n)) SERVICES_items
  && str_in (priorite n) PRIORITES
  && str_in (echeance n) ECHEANCES
  && (1 <=? impact n) && (impact n <=? 5).

(** * Properties *)

(** ** Lists and strings *)

Lemma append_if_app {A : Type} (c : bool) (l : list A) (x : A) :
  append_if c l x = l ++ (if c then [x] else []).
Proof. destruct c; simpl; [reflexivity | by rewrite app_nil_r]. Qed.

Lemma str_in_elem_of (x : string) (l : list string) :
  str_in x l = true <-> x ∈ l.
Proof.
  unfold str_in. rewrite existsb_exists. split.
  - intros (y & Hy & Heq). apply String.eqb_eq in Heq. subst y.
    by apply list_elem_of_In.
  - intros Hx. exists x. split; [by apply list_elem_of_In | apply String.eqb_refl].
Qed.

Lemma sublist_map {A B : Type} (f : A -> B) (l k : list A) :
  l `sublist_of` k -> map f l `sublist_of` map f k.
Proof. induction 1; simpl; by constructor. Qed.

Lemma sublist_Forall {A : Type} (P : A -> Prop) (l k : list A) :
  l `sublist_of` k -> Forall P k -> Forall P l.
Proof.
  intros Hsub Hk. apply Forall_forall. intros x Hx.
  rewrite Forall_forall in Hk. apply Hk. eapply elem_of_sublist; eauto.
Qed.

Lemma sublist_if_singleton {A : Type} (c : bool) (x : A) :
  (if c then [x] else []) `sublist_of` [x].
Proof. destruct c; [reflexivity | apply sublist_nil_l]. Qed.

(** ** The deduplication loop *)

Section Dedup.

Implicit Types (l u : list Need) (E : list (string * string))
  (s : gset (string * string)).

(** The loop computes the first occurrences: [seen] holds the pairs gone
    by. *)
Lemma dedup_loop l : forall u s E,
  (forall k, k ∈ s <-> k ∈ E) ->
  fst (fold_left dedup_step l (u, s)) = u ++ first_occurrences_after E l.
Proof.
  induction l as [|n l IH]; intros u s E HE; simpl.
  - by rewrite app_nil_r.
  - destruct (decide (need_key n ∈ s)) as [Hin|Hout];
      destruct (decide (need_key n ∈ E)) as [Hin'|Hout'];
      try (exfalso; apply HE in Hin; contradiction);
      try (exfalso; apply HE in Hin'; contradiction).
    + rewrite (IH u s (need_key n :: E)); [done|].
      intros k. rewrite elem_of_cons, <- HE. split; [tauto|].
      intros [->|?]; done.
    + rewrite (IH (u ++ [n]) (s ∪ {[need_key n]}) (need_key n :: E)).
      * by rewrite <- app_assoc.
      * intros k. rewrite elem_of_union, elem_of_singleton, elem_of_cons.
        rewrite <- HE. tauto.
Qed.

Lemma dedup_first_occurrences l : dedup l = first_occurrences l.
Proof.
  unfold dedup, first_occurrences.
  rewrite (dedup_loop l [] ∅ []); [done|].
  intros k. split; [set_solver | by intros ?%elem_of_nil].
Qed.

Lemma first_occurrences_after_elem E l n :
  n ∈ first_occurrences_after E l -> n ∈ l /\ need_key n ∉ E.
Proof.
  revert E. induction l as [|m l IH]; intros E; simpl.
  - by intros ?%elem_of_nil.
  - rewrite elem_of_app. intros [Hn|Hn].
    + destruct (decide (need_key m ∈ E)); [by apply elem_of_nil in Hn|].
      apply list_elem_of_singleton in Hn. subst. split; [left|done].
    + apply IH in Hn as [? Hk]. split; [by right|].
      intros ?. apply Hk. by right.
Qed.

Lemma first_occurrences_after_sublist E l :
  first_occurrences_after E l `sublist_of` l.
Proof.
  revert E. induction l as [|m l IH]; intros E; simpl; [done|].
  destruct (decide (need_key m ∈ E)); simpl.
  - by apply sublist_cons.
  - by apply sublist_skip.
Qed.

Lemma first_occurrences_after_NoDup E l :
  NoDup (map need_key (first_occurrences_after E l)).
Proof.
  revert E. induction l as [|m l IH]; intros E; simpl; [constructor|].
  destruct (decide (need_key m ∈ E)) as [_|_]; simpl; [apply IH|].
  apply NoDup_cons. split; [|apply IH].
  intros Hm. apply list_elem_of_In, in_map_iff in Hm as (n & Hk & Hn).
  apply list_elem_of_In, first_occurrences_after_elem in Hn as [_ Hn].
  apply Hn. rewrite Hk. left.
Qed.

(** A list without a repeated pair, none of them gone by, is kept as it
    is. *)
Lemma first_occurrences_after_id E l :
  NoDup (map need_key l) ->
  (forall n, n ∈ l -> need_key n ∉ E) ->
  first_occurrences_after E l = l.
Proof.
  revert E. induction l as [|m l IH]; intros E Hnd HE; simpl; [done|].
  apply NoDup_cons in Hnd as [Hm Hnd].
  destruct (decide (need_key m ∈ E)) as [Hin|_].
  - exfalso. apply (HE m); [left | done].
  - simpl. f_equal. apply IH; [done|].
    intros n Hn [Heq|Hk]%elem_of_cons.
    + apply Hm. rewrite <- Heq.
      apply list_elem_of_In, in_map, list_elem_of_In, Hn.
    + apply (HE n); [by right | done].
Qed.

(** Every pair of the list that has not gone by is the pair of a kept
    entry. *)
Lemma first_occurrences_after_complete E l n :
  n ∈ l -> need_key n ∉ E ->
  exists m, m ∈ first_occurrences_after E l /\ need_key m = need_key n.
Proof.
  revert E. induction l as [|x l IH]; intros E Hn Hk; simpl.
  - by apply elem_of_nil in Hn.
  - destruct (decide (need_key x = need_key n)) as [Heq|Hne].
    + destruct (decide (need_key x ∈ E)) as [Hin|_];
        [by rewrite Heq in Hin|].
      exists x. split; [left | done].
    + apply elem_of_cons in Hn as [->|Hn]; [done|].
      destruct (IH (need_key x :: E) Hn) as (m & Hm & Hmk).
      * intros [?|?]%elem_of_cons; [congruence | done].
      * exists m. split; [|done]. apply elem_of_app. by right.
Qed.

Lemma dedup_id l : NoDup (map need_key l) -> dedup l = l.
Proof.
  intros Hnd. rewrite dedup_first_occurrences.
  apply first_occurrences_after_id; [done|].
  intros n _ ?%elem_of_nil. done.
Qed.

Lemma dedup_NoDup l : NoDup (map need_key (dedup l)).
Proof. rewrite dedup_first_occurrences. apply first_occurrences_after_NoDup. Qed.

Lemma dedup_sublist l : dedup l `sublist_of` l.
Proof. rewrite dedup_first_occurrences. apply first_occurrences_after_sublist. Qed.

End Dedup.

(** ** Running the rules of the deriver *)

Lemma emits_add (b k pr e : string) (i : Z) (j label : string) :
  SERVICES !! k = Some label ->
  emits (add b k pr e i j)
    [ {| besoin := b; service := label; priorite := pr; echeance := e;
         impact := i; justification := j |} ].
Proof. intros Hk needs. unfold add. by rewrite Hk. Qed.

Lemma emits_when (c : bool) (m : M unit) (l : list Need) :
  emits m l -> emits (when c m) (if c then l else []).
Proof.
  intros Hm needs. unfold when. destruct c; [apply Hm|].
  unfold mret, M_ret. by rewrite app_nil_r.
Qed.

Lemma emits_ite (c : bool) (m1 m2 : M unit) (l1 l2 : list Need) :
  emits m1 l1 -> emits m2 l2 ->
  emits (if c then m1 else m2) (if c then l1 else l2).
Proof. by destruct c. Qed.

Lemma emits_seq (m1 m2 : M unit) (l1 l2 : list Need) :
  emits m1 l1 -> emits m2 l2 -> emits (m1 ;; m2) (l1 ++ l2).
Proof.
  intros H1 H2 needs. unfold mbind, M_bind. rewrite H1, H2.
  by rewrite app_assoc.
Qed.

Lemma emits_eq (m : M unit) (l l' : list Need) :
  emits m l -> l = l' -> emits m l'.
Proof. by intros ? <-. Qed.

(** Runs the rules of [generate] symbolically: what is left is the list
    it appends, one conditional per rule. *)
Ltac emits_rules :=
  unfold generate;
  repeat first
    [ eapply emits_seq
    | eapply emits_when
    | eapply emits_ite
    | eapply emits_add; vm_compute; reflexivity ].

Lemma all_needs_keys_NoDup : NoDup (map need_key all_needs).
Proof. apply (bool_decide_unpack _). by vm_compute. Qed.

Lemma sublist_if_cons {A : Type} (c : bool) (x : A) (l k : list A) :
  l `sublist_of` k -> (if c then [x] else []) ++ l `sublist_of` x :: k.
Proof. destruct c; simpl; by constructor. Qed.

Lemma sublist_if_if_cons {A : Type} (c c' : bool) (x y : A) (l k : list A) :
  l `sublist_of` k ->
  (if c then if c' then [x] else [y] else []) ++ l `sublist_of` x :: y :: k.
Proof. destruct c, c'; simpl; by repeat constructor. Qed.

(** [generate] never fails, and what it appends is picked, in order,
    from [all_needs]. *)
Lemma generate_shape (p : ClientProfile) (swot : Swot) :
  exists l, emits (generate p swot) l /\ l `sublist_of` all_needs.
Proof.
  eexists. split; [emits_rules|].
  let v := eval vm_compute in all_needs in
  replace all_needs with v by (vm_compute; reflexivity).
  repeat first [ apply sublist_if_cons | apply sublist_if_if_cons ].
  apply sublist_if_singleton.
Qed.

Lemma generate_generated (p : ClientProfile) (swot : Swot) :
  generate p swot [] = Ok (tt, generated p swot).
Proof.
  destruct (generate_shape p swot) as (l & Hl & _).
  unfold generated. by rewrite (Hl []).
Qed.

Lemma emits_generated (p : ClientProfile) (swot : Swot) (l : list Need) :
  emits (generate p swot) l -> generated p swot = l.
Proof. intros Hl. unfold generated. by rewrite (Hl []). Qed.

Lemma generated_sublist (p : ClientProfile) (swot : Swot) :
  generated p swot `sublist_of` all_needs.
Proof.
  destruct (generate_shape p swot) as (l & Hl & Hsub).
  by rewrite (emits_generated p swot l Hl).
Qed.

Lemma generated_keys_NoDup (p : ClientProfile) (swot : Swot) :
  NoDup (map need_key (generated p swot)).
Proof.
  eapply sublist_NoDup; [apply all_needs_keys_NoDup|].
  apply sublist_map, generated_sublist.
Qed.

Lemma detect_needs_generated (p : ClientProfile) (swot : Swot) :
  detect_needs p swot = Ok (dedup (generated p swot)).
Proof. unfold detect_needs. by rewrite generate_generated. Qed.

Lemma detect_needs_no_dedup_generated (p : ClientProfile) (swot : Swot) :
  detect_needs_no_dedup p swot = Ok (generated p swot).
Proof. unfold detect_needs_no_dedup. by rewrite generate_generated. Qed.

(** ** Validity of the needs *)

Lemma SERVICES_keys_NoDup : NoDup (SERVICES_items.*1).
Proof. apply (bool_decide_unpack _). by vm_compute. Qed.

Lemma need_validb_sound (n : Need) : need_validb n = true -> need_valid n.
Proof.
  unfold need_validb, need_valid.
  rewrite !andb_true_iff, existsb_exists, !str_in_elem_of.
  intros [[[[((k & v) & Hkv & Hv) Hp] He] Hlo] Hhi]. simpl in Hv.
  apply String.eqb_eq in Hv. subst v.
  repeat split; try done; try lia.
  exists k. apply elem_of_list_to_map_1; [apply SERVICES_keys_NoDup|].
  by apply list_elem_of_In.
Qed.

Lemma need_valid_all_needs : Forall need_valid all_needs.
Proof.
  apply Forall_forall. intros n Hn. apply need_validb_sound.
  assert (Hall : forallb need_validb all_needs = true)
    by (vm_compute; reflexivity).
  rewrite forallb_forall in Hall. by apply Hall, list_elem_of_In.
Qed.

Lemma need_valid_generated (p : ClientProfile) (swot : Swot) :
  Forall need_valid (generated p swot).
Proof.
  eapply sublist_Forall; [apply generated_sublist | apply need_valid_all_needs].
Qed.

(** ** The classifier runs the rule list *)

Lemma swot_from_profile_rules (p : ClientProfile) :
  swot_from_profile p = classify_with classifier_rules p.
Proof.
  unfold swot_from_profile. rewrite !append_if_app.
  unfold classify_with, classifier_rules, classifier_rules_spec, source_texts.
  cbn [map zip_with flat_map fire set_text rule_cat rule_pred rule_text
       Category_eqb andb category_key category_type app].
  unfold fire, set_text.
  cbn [rule_cat rule_pred rule_text Category_eqb andb category_type].
  rewrite !app_nil_r, <- !app_assoc. reflexivity.
Qed.

Lemma Category_eqb_eq (a b : Category) : Category_eqb a b = true <-> a = b.
Proof. destruct a, b; simpl; split; congruence. Qed.

Lemma swot_get_classify_with (rules : list Rule) (p : ClientProfile)
    (c : Category) :
  swot_get (category_key c) (classify_with rules p) = flat_map (fire p c) rules.
Proof. by destruct c. Qed.

Section RuleList.

Variable rules : list Rule.
Variable p : ClientProfile.

(** The observations of a category are those of the satisfied rules of
    that category. *)
Lemma texte_fired (c : Category) (t : string) :
  In t (map texte (flat_map (fire p c) rules)) <->
  exists r, In r rules /\ rule_cat r = c /\ rule_pred r p = true
            /\ rule_text r = t.
Proof.
  rewrite in_map_iff. split.
  - intros (o & Ht & Ho). apply in_flat_map in Ho as (r & Hr & Ho).
    exists r. unfold fire in Ho.
    destruct (Category_eqb (rule_cat r) c) eqn:Hc; simpl in Ho; [|done].
    destruct (rule_pred r p) eqn:Hp; simpl in Ho; [|done].
    destruct Ho as [<-|[]]. apply Category_eqb_eq in Hc. by simpl in Ht.
  - intros (r & Hr & Hc & Hp & Ht).
    exists {| type := category_type c; texte := rule_text r |}.
    split; [done|]. apply in_flat_map. exists r. split; [done|].
    unfold fire. apply Category_eqb_eq in Hc. rewrite Hc, Hp. by left.
Qed.

(** A category holds the texts of rules of the list, in its order. *)
Lemma texte_fired_sublist (c : Category) :
  map texte (flat_map (fire p c) rules) `sublist_of` map rule_text rules.
Proof.
  induction rules as [|r rs IH]; simpl; [done|].
  rewrite map_app. unfold fire at 1.
  destruct (Category_eqb (rule_cat r) c && rule_pred r p); simpl.
  - by apply sublist_skip.
  - by apply sublist_cons.
Qed.

Hypothesis texts_NoDup : NoDup (map rule_text rules).

Lemma rule_text_inj (r r' : Rule) :
  In r rules -> In r' rules -> rule_text r = rule_text r' -> r = r'.
Proof.
  clear p. revert texts_NoDup.
  induction rules as [|x rs IH]; simpl; [done|].
  intros [Hx Hnd]%NoDup_cons [->|Hr] [->|Hr'] Heq; [done| | |by apply IH].
  - exfalso. apply Hx. rewrite Heq. by apply list_elem_of_In, in_map.
  - exfalso. apply Hx. rewrite <- Heq. by apply list_elem_of_In, in_map.
Qed.

(** The text of a rule is among the observations of its category
    exactly when the rule is satisfied, whatever the other rules do. *)
Lemma rule_fired_iff_pred (r : Rule) :
  In r rules ->
  str_in (rule_text r) (map texte (flat_map (fire p (rule_cat r)) rules))
  = rule_pred r p.
Proof.
  intros Hr. destruct (rule_pred r p) eqn:Hp.
  - apply str_in_elem_of, list_elem_of_In, texte_fired. by exists r.
  - destruct (str_in _ _) eqn:Hin; [|done].
    apply str_in_elem_of, list_elem_of_In, texte_fired in Hin
      as (r' & Hr' & _ & Hp' & Ht).
    apply rule_text_inj in Ht; [|done..]. congruence.
Qed.

(** No text is appended twice to a category. *)
Lemma texte_fired_NoDup (c : Category) :
  NoDup (map texte (flat_map (fire p c) rules)).
Proof. eapply sublist_NoDup; [exact texts_NoDup | apply texte_fired_sublist]. Qed.

End RuleList.

Lemma source_texts_NoDup : NoDup (map rule_text classifier_rules).
Proof. apply (bool_decide_unpack _). by vm_compute. Qed.

(** For the classification of [p], an observation is present exactly
    when its rule is satisfied. *)
Lemma present_iff_pred (p : ClientProfile) (r : Rule) :
  In r classifier_rules ->
  present (rule_cat r) (rule_text r) (swot_from_profile p) = rule_pred r p.
Proof.
  intros Hr. unfold present.
  rewrite swot_from_profile_rules, swot_get_classify_with.
  by apply rule_fired_iff_pred; [apply source_texts_NoDup|].
Qed.

(** ** The deriver on a classification *)

Lemma swot_get_profile (p : ClientProfile) (c : Category) :
  swot_get (category_key c) (swot_from_profile p)
  = flat_map (fire p c) classifier_rules.
Proof. rewrite swot_from_profile_rules. apply swot_get_classify_with. Qed.

(** Unfolds [flat_map (fire p c) classifier_rules] into one conditional
    per rule of the category [c]. *)
Ltac fired_lists :=
  unfold classifier_rules, classifier_rules_spec, source_texts;
  cbn [zip_with flat_map]; unfold fire, set_text;
  cbn [rule_cat rule_pred rule_text Category_eqb andb category_type app].

(** On the classification of a profile, the substring tests of the
    opportunity rules select the same observations as the presence of the
    whole text. *)
Lemma opportunity_tests (p : ClientProfile) :
  let swot := swot_from_profile p in
  any_texte_contains "Préparer la transmission / retraite dirigeant"
    (swot_get "Opportunités" swot)
  = present Opportunity "Préparer la transmission / retraite dirigeant" swot
  /\ any_texte_contains "Optimisation patrimoniale"
       (swot_get "Opportunités" swot)
     = present Opportunity
         "Optimisation patrimoniale (holding/SCI/PEA-PME, etc.)" swot
  /\ any_texte_contains "Développement export" (swot_get "Opportunités" swot)
     = present Opportunity
         "Développement export / structuration internationale" swot
  /\ any_texte_contains "Valorisation via la démarche RSE"
       (swot_get "Opportunités" swot)
     = present Opportunity
         "Valorisation via la démarche RSE / CSRD adaptée" swot.
Proof.
  intros swot. subst swot. unfold present. cbn [category_key].
  pose proof (swot_get_profile p Opportunity) as HO.
  cbn [category_key] in HO. rewrite !HO. clear HO. fired_lists.
  destruct (str_in (proche_retraite p) _), (patrimoine_dirigeant_important p),
    (rse_sensible p), (str_in (exposition_internationale p) _);
    vm_compute; repeat split; reflexivity.
Qed.

(** The size test of the source is [size band >= 11]. *)
Lemma size_at_least_11_eq (p : ClientProfile) :
  size_at_least_11 p = str_in (taille p) ["11-49"; "50-249"; "250+"].
Proof.
  unfold size_at_least_11, TAILLE, str_in. cbn [rank existsb].
  repeat match goal with
  | |- context [String.eqb (taille p) ?s] =>
      destruct (String.eqb (taille p) s) eqn:?; cbn [fmap option_fmap option_map orb]
  end; try reflexivity;
  repeat match goal with
  | H : String.eqb _ _ = true |- _ => apply String.eqb_eq in H
  end; congruence.
Qed.

(** For a value of [EXPO_INTERNATIONAL], being one of the two exposed
    levels is not being the level of no exposure. *)
Lemma exposed_iff_not_none (x : string) :
  str_in x EXPO_INTERNATIONAL = true ->
  str_in x ["Occasionnelle"; "Régulière/Structurée"]
  = negb (x =? "Aucune")%string.
Proof.
  intros Hx. apply str_in_elem_of in Hx. unfold EXPO_INTERNATIONAL in Hx.
  repeat (apply elem_of_cons in Hx as [->|Hx]; [by vm_compute|]).
  by apply elem_of_nil in Hx.
Qed.

Lemma if_singleton_eq {A : Type} (c c' : bool) (x x' : A) :
  c = c' -> x = x' -> (if c then [x] else []) = (if c' then [x'] else []).
Proof. by intros -> ->. Qed.

(** One rule of [generate] against one row of the table. *)
Ltac same_row :=
  apply (f_equal2 (@app Need));
  [ apply if_singleton_eq; [ | vm_compute; reflexivity ] | ].

(** On the classification of a well-formed profile, [generate] appends
    the needs of the table rows that apply, in the order of the table. *)
Lemma generate_run_table (p : ClientProfile) :
  well_formed p ->
  emits (generate p (swot_from_profile p))
    (run_table need_rule_table_spec p (swot_from_profile p)).
Proof.
  intros Hwf.
  destruct Hwf as (_ & _ & _ & _ & Hexpo & _).
  destruct (opportunity_tests p) as (H1 & H2 & H3 & H4). cbn zeta in H1, H2, H3, H4.
  eapply emits_eq; [emits_rules|].
  rewrite H1, H2, H3, H4.
  unfold run_table, need_rule_table_spec. cbn [flat_map nr_cond].
  rewrite app_nil_r.
  do 12 (same_row; [reflexivity|]).
  rewrite (app_assoc (if size_at_least_11 p && negb _ then _ else _)).
  apply (f_equal2 (@app Need)).
  { rewrite size_at_least_11_eq.
    destruct (str_in (taille p) _), (presence_cadres p);
      vm_compute; reflexivity. }
  same_row; [by rewrite (exposed_iff_not_none _ Hexpo)|].
  same_row; [reflexivity|].
  apply if_singleton_eq; [reflexivity | vm_compute; reflexivity].
Qed.

Lemma detect_needs_run_table (p : ClientProfile) :
  well_formed p ->
  generated p (swot_from_profile p)
  = run_table need_rule_table_spec p (swot_from_profile p).
Proof. intros Hwf. by apply emits_generated, generate_run_table. Qed.


Lemma present_rules (p : ClientProfile) :
  Forall (fun r => present (rule_cat r) (rule_text r) (swot_from_profile p)
                   = rule_pred r p) classifier_rules.
Proof.
  apply Forall_forall. intros r Hr. by apply present_iff_pred, list_elem_of_In.
Qed.

(** * The claims *)

(** C1, as stated, at the profile [advanced]: the classifier does not
    append the observation text of the specification's rule set.  Its
    strength reads "Digitalisation avancée (intégrations possibles)"
    where section 4.1 has "Digitalisation avancée". *)
Lemma classifier_texts_not_those_of_spec :
  (digital advanced =? "Informatique avancée")%string = true
  /\ map texte (swot_get "Forces" (swot_from_profile advanced))
     = ["Digitalisation avancée (intégrations possibles)"]
  /\ ~ In "Digitalisation avancée"
         (map texte (swot_get "Forces" (swot_from_profile advanced)))
  /\ swot_from_profile advanced
     <> classify_with classifier_rules_spec advanced.
Proof.
  split; [reflexivity|]. split; [reflexivity|]. split.
  - intros [H|[]]. discriminate H.
  - intros H. apply (f_equal (swot_get "Forces")) in H.
    vm_compute in H. discriminate H.
Qed.

(** C1, amended.  For every profile the classifier runs the rule list of
    section 4.1, with its predicates, its categories and its order, the
    categories in the order Strengths, Weaknesses, Opportunities,
    Threats; every satisfied rule appends to its category the observation
    text the source declares for it ([source_texts], longer than the
    texts of section 4.1 for all rules but two); no text is appended
    twice, and the text of a rule is present exactly when its own
    predicate holds, whatever the other rules do. *)
Theorem classifier_runs_rule_list (p : ClientProfile) :
  swot_from_profile p = classify_with classifier_rules p
  /\ map rule_pred classifier_rules = map rule_pred classifier_rules_spec
  /\ map rule_cat classifier_rules = map rule_cat classifier_rules_spec
  /\ map rule_text classifier_rules = source_texts
  /\ map fst (swot_from_profile p)
     = map category_key [Strength; Weakness; Opportunity; Threat]
  /\ (forall c : Category,
        NoDup (map texte (swot_get (category_key c) (swot_from_profile p))))
  /\ Forall (fun r =>
        present (rule_cat r) (rule_text r) (swot_from_profile p)
        = rule_pred r p) classifier_rules.
Proof.
  repeat split; try reflexivity.
  - apply swot_from_profile_rules.
  - intros c. rewrite swot_get_profile.
    apply texte_fired_NoDup, source_texts_NoDup.
  - apply present_rules.
Qed.

Lemma In_run_table (table : list NeedRule) (p : ClientProfile) (swot : Swot)
    (n : Need) :
  In n (run_table table p swot) <->
  exists r, In r table /\ nr_cond r p swot = true /\ need_of_rule r = n.
Proof.
  unfold run_table. rewrite in_flat_map. split.
  - intros (r & Hr & Hn). exists r.
    destruct (nr_cond r p swot); [|done].
    destruct Hn as [<-|[]]. done.
  - intros (r & Hr & Hc & <-). exists r. rewrite Hc. split; [done | by left].
Qed.

Lemma well_formed_demo : well_formed demo.
Proof. repeat split; try reflexivity. simpl. lia. Qed.

(** C2.  For every well-formed profile and its classification, the
    needs the deriver generates, before the deduplication, are those of
    the rows of the table of section 4.2 whose condition holds, in the
    order of the table, one need for each such row, with the department,
    priority, deadline, impact and rationale of the row; the need of the
    margin row, routed to eco_strat with priority High, deadline
    Immediate and impact 5, is there exactly when the weakness on the
    margin is present.  The profiles are those of the data model, whose
    fields hold values of their vocabularies: on these, and not on an
    exposure outside [EXPO_INTERNATIONAL], the test of the fiscal rule
    is [international exposure <> none]. *)
Theorem detect_needs_follows_rule_table (p : ClientProfile) :
  well_formed p ->
  detect_needs_no_dedup p (swot_from_profile p)
  = Ok (run_table need_rule_table_spec p (swot_from_profile p))
  /\ (In need_pricing_study
        (run_table need_rule_table_spec p (swot_from_profile p))
      <-> present Weakness "Marge insuffisante / prix de revient non maîtrisé"
            (swot_from_profile p) = true).
Proof.
  intros Hwf. split.
  - rewrite detect_needs_no_dedup_generated.
    rewrite (detect_needs_run_table p Hwf). reflexivity.
  - rewrite In_run_table. split.
    + intros (r & Hr & Hc & Hn). unfold need_rule_table_spec in Hr.
      cbn [In] in Hr.
      repeat (destruct Hr as [<-|Hr];
              [first [ vm_compute in Hn; discriminate Hn | exact Hc ]|]).
      destruct Hr.
    + intros Hc.
      match eval cbv delta [need_rule_table_spec] in need_rule_table_spec with
      | _ :: _ :: ?r :: _ => exists r
      end.
      split; [|split]; [| exact Hc | vm_compute; reflexivity].
      unfold need_rule_table_spec. do 2 right. left. reflexivity.
Qed.

Lemma detect_needs_follows_rule_table_demo :
  well_formed demo
  /\ detect_needs_no_dedup demo (swot_from_profile demo)
     = Ok (run_table need_rule_table_spec demo (swot_from_profile demo)).
Proof.
  split; [exact well_formed_demo|].
  exact (proj1 (detect_needs_follows_rule_table demo well_formed_demo)).
Defined.

(** C3.  For every profile (and every classification handed to the
    deriver) the returned list is the generated list with, of the
    entries that share a (description, department) pair, only the first
    kept: it is the list of first occurrences, picked in order from the
    generated list, every pair of the generated list is still the pair of
    a returned need, and no two returned needs share a pair.  The loop
    does this on every list of needs. *)
Theorem detect_needs_keeps_first_occurrences (p : ClientProfile)
    (swot : Swot) :
  detect_needs_no_dedup p swot = Ok (generated p swot)
  /\ detect_needs p swot = Ok (first_occurrences (generated p swot))
  /\ (forall l : list Need,
        dedup l = first_occurrences l
        /\ dedup l `sublist_of` l
        /\ NoDup (map need_key (dedup l))
        /\ Forall (fun n => exists m, In m (dedup l)
                                      /\ need_key m = need_key n) l).
Proof.
  split; [apply detect_needs_no_dedup_generated|].
  split; [by rewrite detect_needs_generated, dedup_first_occurrences|].
  intros l. repeat split.
  - apply dedup_first_occurrences.
  - apply dedup_sublist.
  - apply dedup_NoDup.
  - apply Forall_forall. intros n Hn.
    destruct (first_occurrences_after_complete [] l n Hn) as (m & Hm & Hk).
    { by intros ?%elem_of_nil. }
    exists m. rewrite dedup_first_occurrences.
    split; [by apply list_elem_of_In | done].
Qed.

(** C4.  Both functions are deterministic: called twice with the same
    profile, the classifier returns the same classification, observation
    for observation and in the same order; called twice with the same
    profile and classification, the deriver returns the same list of
    needs. *)
Theorem core_deterministic (p p' : ClientProfile) (swot swot' : Swot) :
  p = p' -> swot = swot' ->
  swot_from_profile p = swot_from_profile p'
  /\ detect_needs p swot = detect_needs p' swot'
  /\ detect_needs p (swot_from_profile p)
     = detect_needs p' (swot_from_profile p').
Proof. by intros -> ->. Qed.

Lemma core_deterministic_demo :
  swot_from_profile demo = swot_from_profile demo
  /\ detect_needs demo (swot_from_profile scenario1)
     = detect_needs demo (swot_from_profile scenario1)
  /\ detect_needs demo (swot_from_profile demo)
     = detect_needs demo (swot_from_profile demo).
Proof.
  exact (core_deterministic demo demo (swot_from_profile scenario1)
           (swot_from_profile scenario1) eq_refl eq_refl).
Defined.

(** The two functions read neither the name, nor the notes, nor the
    succession flag of the profile, and the classifier does not read the
    count of banks: profiles that agree on the other fields are
    classified alike and get the same needs. *)
Lemma core_reads_rule_fields (p p' : ClientProfile) (swot : Swot) :
  secteur p = secteur p' -> taille p = taille p' ->
  digital p = digital p' -> impact_env p = impact_env p' ->
  rse_sensible p = rse_sensible p' ->
  presence_cadres p = presence_cadres p' ->
  exposition_internationale p = exposition_internationale p' ->
  dependance_client p = dependance_client p' ->
  croissance p = croissance p' -> marge p = marge p' ->
  tresorerie_tendue p = tresorerie_tendue p' ->
  reporting_mensuel p = reporting_mensuel p' ->
  proche_retraite p = proche_retraite p' ->
  patrimoine_dirigeant_important p = patrimoine_dirigeant_important p' ->
  btp_specifique p = btp_specifique p' ->
  ecommerce_plateformes p = ecommerce_plateformes p' ->
  risques_juridiques p = risques_juridiques p' ->
  swot_from_profile p = swot_from_profile p'
  /\ (nb_banques p = nb_banques p' ->
      detect_needs p swot = detect_needs p' swot).
Proof.
  intros H1 H2 H3 H4 H5 H6 H7 H8 H9 H10 H11 H12 H13 H14 H15 H16 H17.
  split.
  - unfold swot_from_profile.
    by rewrite H1, H2, H3, H4, H5, H6, H7, H8, H9, H10, H11, H12, H13, H14,
      H15, H16, H17.
  - intros H18. unfold detect_needs, generate.
    by rewrite H2, H5, H6, H7, H9, H10, H11, H12, H16, H18.
Qed.

(** The department keys of the rules are keys of [SERVICES]. *)
Lemma rule_keys_in_SERVICES :
  Forall (fun r => is_Some (SERVICES !! nr_dept r)) need_rule_table_spec.
Proof.
  unfold need_rule_table_spec.
  repeat (apply Forall_cons; split;
          [cbn [nr_dept]; eexists; vm_compute; reflexivity|]).
  apply Forall_nil. done.
Qed.

(** C5.  The two functions are total; in particular they are on every
    well-formed profile.  The classifier returns a classification with
    the four categories; on every profile and classification, each
    lookup of a department key in [SERVICES] succeeds whatever the list
    of needs at that point, so the deriver returns a list of needs and
    never raises [KeyError]. *)
Theorem core_total (p : ClientProfile) (swot : Swot) :
  map fst (swot_from_profile p) = ["Forces"; "Faiblesses"; "Opportunités"; "Menaces"]
  /\ (forall needs : list Need,
        exists l, generate p swot needs = Ok (tt, needs ++ l))
  /\ (exists out, detect_needs p swot = Ok out)
  /\ (exists out, detect_needs p (swot_from_profile p) = Ok out)
  /\ (forall k : string, detect_needs p swot <> KeyError k)
  /\ Forall (fun r => is_Some (SERVICES !! nr_dept r)) need_rule_table_spec.
Proof.
  split; [reflexivity|].
  split.
  { intros needs. destruct (generate_shape p swot) as (l & Hl & _).
    exists l. apply Hl. }
  split; [eexists; apply detect_needs_generated|].
  split; [eexists; apply detect_needs_generated|].
  split; [intros k; by rewrite detect_needs_generated|].
  apply rule_keys_in_SERVICES.
Qed.

(** C6.  For every profile (and every classification handed to the
    deriver) each returned need has for department one of the display
    names of [SERVICES], for priority one of [PRIORITES], for deadline
    one of [ECHEANCES], and an impact from 1 to 5. *)
Theorem detect_needs_valid (p : ClientProfile) (swot : Swot) :
  exists out, detect_needs p swot = Ok out /\ Forall need_valid out.
Proof.
  exists (dedup (generated p swot)).
  split; [apply detect_needs_generated|].
  eapply sublist_Forall; [apply dedup_sublist | apply need_valid_generated].
Qed.

(** C9.  The deduplication is idempotent: on every list of needs,
    filtering twice gives what filtering once gives. *)
Theorem dedup_idempotent (l : list Need) : dedup (dedup l) = dedup l.
Proof. apply dedup_id, dedup_NoDup. Qed.

Lemma filter_if_singleton_out {A : Type} (f : A -> bool) (c : bool) (x : A) :
  f x = false -> List.filter f (if c then [x] else []) = [].
Proof. intros Hx. destruct c; simpl; [by rewrite Hx | done]. Qed.

(** Of the needs generated, at most one goes to the social department:
    the two rules that route there are the two branches of one test. *)
Lemma generated_social (p : ClientProfile) (swot : Swot) :
  List.filter is_social (generated p swot)
  = if str_in (taille p) ["11-49"; "50-249"; "250+"]
    then if negb (presence_cadres p)
         then [need_social_audit]
         else [ {| besoin := "Optimisation processus paie/RH";
                   service := "Service Paie & RH"; priorite := "Moyenne";
                   echeance := "6-12 mois"; impact := 3;
                   justification := "Effectif significatif" |} ]
    else [].
Proof.
  match goal with
  | |- _ = ?r =>
      assert (exists l, emits (generate p swot) l /\
                        List.filter is_social l = r) as (l & Hl & Hf);
      [eexists; split; [emits_rules|] | by rewrite (emits_generated _ _ _ Hl)]
  end.
  rewrite !List.filter_app.
  rewrite !filter_if_singleton_out by (vm_compute; reflexivity).
  rewrite !app_nil_r. cbn [app].
  destruct (str_in (taille p) _), (presence_cadres p); reflexivity.
Qed.

(** C10.  For every profile (and every classification handed to the
    deriver) the list generated before the deduplication has no two
    needs with the same (description, department) pair: the descriptions
    the rules can append are pairwise distinct, and at most one of the
    two social needs is generated.  So the deriver returns what it
    returns without the deduplication. *)
Theorem dedup_changes_nothing (p : ClientProfile) (swot : Swot) :
  NoDup (map besoin all_needs)
  /\ generated p swot `sublist_of` all_needs
  /\ (length (List.filter is_social (generated p swot)) <= 1)%nat
  /\ detect_needs_no_dedup p swot = Ok (generated p swot)
  /\ NoDup (map need_key (generated p swot))
  /\ detect_needs p swot = detect_needs_no_dedup p swot.
Proof.
  split; [apply (bool_decide_unpack _); by vm_compute|].
  split; [apply generated_sublist|].
  split.
  { rewrite generated_social.
    destruct (str_in (taille p) _), (negb (presence_cadres p)); simpl; lia. }
  split; [apply detect_needs_no_dedup_generated|].
  split; [apply generated_keys_NoDup|].
  rewrite detect_needs_generated, detect_needs_no_dedup_generated.
  by rewrite dedup_id by apply generated_keys_NoDup.
Qed.

(** C7.  Scenario 1: for a profile with no digital tooling, no monthly
    reporting, a low margin and strained cash, whatever its other
    fields, the weaknesses are exactly the four observations on digital
    maturity, reporting, margin and cash, in this order, and the list
    of needs, before as after the deduplication, starts with the
    digital plan, the dashboards, the pricing study and the cash
    management, in this order; the last two are of priority Haute,
    deadline Immédiat, impact 5. *)
Theorem scenario1_weaknesses_and_needs (p : ClientProfile) :
  digital p = "Pas informatique" ->
  reporting_mensuel p = false ->
  marge p = "Faible" ->
  tresorerie_tendue p = true ->
  swot_get "Faiblesses" (swot_from_profile p)
  = [ weakness "Maturité digitale faible (risque d'erreurs/coûts)";
      weakness "Absence de reporting/indicateurs réguliers";
      weakness "Marge insuffisante / prix de revient non maîtrisé";
      weakness "Trésorerie tendue / pas de prévisionnel" ]
  /\ (exists rest,
        detect_needs_no_dedup p (swot_from_profile p)
        = Ok ([need_digital_plan; need_dashboards; need_pricing_study;
               need_cash_management] ++ rest)
        /\ detect_needs p (swot_from_profile p)
           = Ok ([need_digital_plan; need_dashboards; need_pricing_study;
                  need_cash_management] ++ rest))
  /\ (priorite need_pricing_study, echeance need_pricing_study,
      impact need_pricing_study) = ("Haute", "Immédiat (≤ 3 mois)", 5)
  /\ (priorite need_cash_management, echeance need_cash_management,
      impact need_cash_management) = ("Haute", "Immédiat (≤ 3 mois)", 5).
Proof.
  intros Hd Hr Hm Ht.
  assert (Hw : swot_get "Faiblesses" (swot_from_profile p)
               = [ weakness "Maturité digitale faible (risque d'erreurs/coûts)";
                   weakness "Absence de reporting/indicateurs réguliers";
                   weakness "Marge insuffisante / prix de revient non maîtrisé";
                   weakness "Trésorerie tendue / pas de prévisionnel" ]).
  { pose proof (swot_get_profile p Weakness) as HW.
    cbn [category_key] in HW. rewrite HW. fired_lists.
    by rewrite Hd, Hr, Hm, Ht. }
  split; [exact Hw|]. split; [|split; reflexivity].
  assert (exists l, emits (generate p (swot_from_profile p)) l /\
            exists rest, l = [need_digital_plan; need_dashboards;
                              need_pricing_study; need_cash_management]
                             ++ rest) as (l & Hl & rest & ->).
  { eexists. split; [emits_rules|]. rewrite Hw. eexists. reflexivity. }
  exists rest.
  rewrite detect_needs_no_dedup_generated, detect_needs_generated.
  rewrite dedup_id by apply generated_keys_NoDup.
  by rewrite (emits_generated _ _ _ Hl).
Qed.

Lemma scenario1_weaknesses_and_needs_at_scenario1 :
  swot_get "Faiblesses" (swot_from_profile scenario1)
  = [ weakness "Maturité digitale faible (risque d'erreurs/coûts)";
      weakness "Absence de reporting/indicateurs réguliers";
      weakness "Marge insuffisante / prix de revient non maîtrisé";
      weakness "Trésorerie tendue / pas de prévisionnel" ]
  /\ (exists rest,
        detect_needs_no_dedup scenario1 (swot_from_profile scenario1)
        = Ok ([need_digital_plan; need_dashboards; need_pricing_study;
               need_cash_management] ++ rest)
        /\ detect_needs scenario1 (swot_from_profile scenario1)
           = Ok ([need_digital_plan; need_dashboards; need_pricing_study;
                  need_cash_management] ++ rest))
  /\ (priorite need_pricing_study, echeance need_pricing_study,
      impact need_pricing_study) = ("Haute", "Immédiat (≤ 3 mois)", 5)
  /\ (priorite need_cash_management, echeance need_cash_management,
      impact need_cash_management) = ("Haute", "Immédiat (≤ 3 mois)", 5).
Proof.
  apply (scenario1_weaknesses_and_needs scenario1); reflexivity.
Defined.

(** On the profile of scenario 1 the four needs are followed by two
    more: strained cash also calls for the centralisation of the banks,
    and a stable activity with a margin that is not comfortable for the
    strategic diagnostic. *)
Example detect_needs_scenario1 :
  map besoin
    (match detect_needs scenario1 (swot_from_profile scenario1) with
     | Ok out => out
     | KeyError _ => []
     end)
  = [ "Cartographie & plan de digitalisation";
      "Mise en place de tableaux de bord mensuels";
      "Étude prix de revient & politique de pricing";
      "Prévisionnel & cash management";
      "Centralisation banques & rapprochements automatiques";
      "Diagnostic stratégique (marché/offre/organisation)" ].
Proof. by vm_compute. Qed.

(** The loop does collapse a list that repeats its pairs. *)
Example dedup_collapses : dedup (all_needs ++ all_needs) = all_needs.
Proof. by vm_compute. Qed.

(** C8.  Scenario 2: for a profile of the size band 50-249 with no
    structured HR, whatever its other fields, the threats hold the
    observation on reinforced social obligations, and the list of needs
    holds exactly one need routed to the social department, the social
    audit, of priority Haute, deadline Immédiat, impact 4. *)
Theorem scenario2_threat_and_social_need (p : ClientProfile) :
  taille p = "50-249" ->
  presence_cadres p = false ->
  In (threat "Obligations sociales renforcées sans structuration RH")
    (swot_get "Menaces" (swot_from_profile p))
  /\ (exists out,
        detect_needs p (swot_from_profile p) = Ok out
        /\ List.filter is_social out = [need_social_audit])
  /\ (service need_social_audit, priorite need_social_audit,
      echeance need_social_audit, impact need_social_audit)
     = (service_label "social", "Haute", "Immédiat (≤ 3 mois)", 4).
Proof.
  intros Ht Hc. split; [|split; [|by vm_compute]].
  - pose proof (swot_get_profile p Threat) as HM.
    cbn [category_key] in HM. rewrite HM. fired_lists.
    rewrite Ht, Hc. rewrite !in_app_iff.
    do 3 right. left. by left.
  - exists (generated p (swot_from_profile p)). split.
    + rewrite detect_needs_generated.
      by rewrite dedup_id by apply generated_keys_NoDup.
    + rewrite generated_social. by rewrite Ht, Hc.
Qed.

Lemma scenario2_threat_and_social_need_at_scenario2 :
  In (threat "Obligations sociales renforcées sans structuration RH")
    (swot_get "Menaces" (swot_from_profile scenario2))
  /\ (exists out,
        detect_needs scenario2 (swot_from_profile scenario2) = Ok out
        /\ List.filter is_social out = [need_social_audit])
  /\ (service need_social_audit, priorite need_social_audit,
      echeance need_social_audit, impact need_social_audit)
     = (service_label "social", "Haute", "Immédiat (≤ 3 mois)", 4).
Proof.
  apply (scenario2_threat_and_social_need scenario2); reflexivity.
Defined.

(** On the profile of scenario 2 the needs are the dashboards, the
    social audit and the strategic diagnostic. *)
Example detect_needs_scenario2 :
  map besoin
    (match detect_needs scenario2 (swot_from_profile scenario2) with
     | Ok out => out
     | KeyError _ => []
     end)
  = [ "Mise en place de tableaux de bord mensuels";
      "Audit social & mise en conformité (CSE, DUERP...)";
      "Diagnostic stratégique (marché/offre/organisation)" ].
Proof. by vm_compute. Qed.

(** * Further properties of the rule engine *)

(** Brings in, for each rule of the classifier, the fact that its text
    is among the observations of its category exactly when its predicate
    holds. *)
Ltac present_facts p :=
  let H := fresh "H" in
  pose proof (present_rules p) as H;
  unfold classifier_rules, classifier_rules_spec, source_texts in H;
  cbn [zip_with] in H;
  repeat (apply Forall_cons in H as [? H]);
  clear H;
  unfold present in *;
  cbn [set_text rule_cat rule_text rule_pred category_key] in *.

(** Rewrites, in the goal, the tests of the deriver on the
    classification of [p] into the predicates of the classifier's
    rules. *)
Ltac tests_to_predicates p :=
  let O1 := fresh "O" in let O2 := fresh "O" in
  let O3 := fresh "O" in let O4 := fresh "O" in
  destruct (opportunity_tests p) as (O1 & O2 & O3 & O4);
  cbn zeta in O1, O2, O3, O4;
  rewrite ?O1, ?O2, ?O3, ?O4; clear O1 O2 O3 O4;
  present_facts p;
  repeat match goal with
  | H : str_in _ (map texte (swot_get _ (swot_from_profile p))) = _ |- _ =>
      rewrite ?H; clear H
  end.

(** X1.  The classification never contradicts itself: no profile gets both
    the strength and the weakness on its digital tooling, or on its
    margin, and every profile gets exactly one of the two observations
    on its reporting. *)
Theorem classification_consistent (p : ClientProfile) :
  present Strength "Digitalisation avancée (intégrations possibles)"
    (swot_from_profile p)
  && present Weakness "Maturité digitale faible (risque d'erreurs/coûts)"
       (swot_from_profile p) = false
  /\ present Strength "Marge confortable" (swot_from_profile p)
     && present Weakness "Marge insuffisante / prix de revient non maîtrisé"
          (swot_from_profile p) = false
  /\ present Weakness "Absence de reporting/indicateurs réguliers"
       (swot_from_profile p)
     = negb (present Strength "Reporting financier mensuel déjà en place"
               (swot_from_profile p)).
Proof.
  unfold present. cbn [category_key]. tests_to_predicates p.
  split; [|split; [|reflexivity]];
    apply andb_false_iff;
    match goal with
    | |- String.eqb ?x ?a = false \/ String.eqb ?x ?b = false =>
        destruct (String.eqb x a) eqn:Ha; [right|by left];
        apply String.eqb_eq in Ha; rewrite Ha; by vm_compute
    end.
Qed.

(** X2.  The legal-risk flag adds a threat to the classification and never
    a need: whatever the flag is set to, the deriver returns, on the
    classification of the profile, what it returns for the profile as it
    was. *)
Theorem legal_risk_raises_no_need (p : ClientProfile) (b : bool) :
  present Threat "Litiges / risques juridiques non traités"
    (swot_from_profile (set_risques_juridiques b p)) = b
  /\ detect_needs (set_risques_juridiques b p)
       (swot_from_profile (set_risques_juridiques b p))
     = detect_needs p (swot_from_profile p).
Proof.
  split.
  - unfold present. cbn [category_key].
    tests_to_predicates (set_risques_juridiques b p). reflexivity.
  - assert (exists l, emits (generate p (swot_from_profile p)) l /\
              emits (generate (set_risques_juridiques b p)
                       (swot_from_profile (set_risques_juridiques b p))) l)
      as (l & Hl & Hl').
    { eexists. split; [emits_rules|].
      eapply emits_eq; [emits_rules|].
      tests_to_predicates p.
      tests_to_predicates (set_risques_juridiques b p).
      reflexivity. }
    rewrite !detect_needs_generated.
    by rewrite (emits_generated _ _ _ Hl), (emits_generated _ _ _ Hl').
Qed.


Lemma sublist_List_filter {A : Type} (f : A -> bool) (l k : list A) :
  l `sublist_of` k -> List.filter f l `sublist_of` List.filter f k.
Proof.
  induction 1 as [|x l k _ IH|x l k _ IH]; simpl; [done| |];
    destruct (f x); by try constructor.
Qed.

Lemma length_fired (rules : list Rule) (p : ClientProfile) (c : Category) :
  (length (flat_map (fire p c) rules)
   <= length (List.filter (fun r => Category_eqb (rule_cat r) c) rules))%nat.
Proof.
  induction rules as [|r rs IH]; simpl; [done|].
  rewrite length_app. unfold fire at 1.
  destruct (Category_eqb (rule_cat r) c); simpl; [|lia].
  destruct (rule_pred r p); simpl; lia.
Qed.

(** X4.  The sizes are bounded: a classification holds at most 4 strengths,
    4 weaknesses, 4 opportunities and 6 threats, and the deriver never
    returns more than 16 needs, whatever classification it is handed.
    The profile [loaded] reaches the bounds on threats and on needs. *)
Theorem sizes_bounded (p : ClientProfile) (swot : Swot) :
  (length (swot_get "Forces" (swot_from_profile p)) <= 4)%nat
  /\ (length (swot_get "Faiblesses" (swot_from_profile p)) <= 4)%nat
  /\ (length (swot_get "Opportunités" (swot_from_profile p)) <= 4)%nat
  /\ (length (swot_get "Menaces" (swot_from_profile p)) <= 6)%nat
  /\ (exists out, detect_needs p swot = Ok out /\ (length out <= 16)%nat)
  /\ length (swot_get "Menaces" (swot_from_profile loaded)) = 6%nat
  /\ (exists out, detect_needs loaded (swot_from_profile loaded) = Ok out
                  /\ length out = 16%nat).
Proof.
  pose proof (length_fired classifier_rules p) as Hlen.
  pose proof (Hlen Strength) as HF. pose proof (Hlen Weakness) as HW.
  pose proof (Hlen Opportunity) as HO. pose proof (Hlen Threat) as HM.
  rewrite <- swot_get_profile in HF, HW, HO, HM. clear Hlen.
  cbn [category_key] in HF, HW, HO, HM.
  split; [exact HF|]. split; [exact HW|]. split; [exact HO|].
  split; [exact HM|]. split; [|split].
  - exists (dedup (generated p swot)).
    split; [apply detect_needs_generated|].
    rewrite dedup_id by apply generated_keys_NoDup.
    rewrite <- (List.filter_length is_social).
    pose proof (sublist_length _ _
                  (sublist_List_filter (fun n => negb (is_social n)) _ _
                     (generated_sublist p swot))) as Hrest.
    assert (Hsoc : (length (List.filter is_social (generated p swot)) <= 1)%nat).
    { rewrite generated_social.
      destruct (str_in (taille p) _), (negb (presence_cadres p)); simpl; lia. }
    change (length (List.filter (fun n => negb (is_social n)) all_needs))
      with 15%nat in Hrest.
    lia.
  - by vm_compute.
  - eexists. split; [by vm_compute|]. by vm_compute.
Qed.

(** ** The table of needs *)

Lemma asdict_dom (n : Need) : dom (asdict n) = list_to_set Need_fields.
Proof. unfold asdict. rewrite dom_list_to_map_L. reflexivity. Qed.

(** The shape of the table of needs. *)
Lemma needs_to_dataframe_facts (needs : list Need) :
  columns (needs_to_dataframe needs) = Need_fields ++ ["Envoyer ?"]
  /\ rows (needs_to_dataframe needs)
     = map (fun n => <["Envoyer ?" := VBool true]> (asdict n)) needs
  /\ Forall (fun row : Row =>
               (forall c, is_Some (row !! c)
                          <-> c ∈ columns (needs_to_dataframe needs))
               /\ row !! "Envoyer ?" = Some (VBool true))
       (rows (needs_to_dataframe needs))
  /\ df_empty (needs_to_dataframe needs)
     = match needs with [] => true | _ :: _ => false end.
Proof.
  assert (Hcols : columns (needs_to_dataframe needs)
                  = Need_fields ++ ["Envoyer ?"]) by (destruct needs; reflexivity).
  assert (Hrows : rows (needs_to_dataframe needs)
                  = map (fun n => <["Envoyer ?" := VBool true]> (asdict n))
                      needs).
  { destruct needs as [|n l]; [reflexivity|].
    change (rows (needs_to_dataframe (n :: l)))
      with (map (insert "Envoyer ?" (VBool true)) (map asdict (n :: l))).
    by rewrite map_map. }
  split; [exact Hcols|]. split; [exact Hrows|].
  split; [|destruct needs; reflexivity].
  rewrite Hrows, Hcols. apply Forall_forall. intros row Hrow.
  apply list_elem_of_In, in_map_iff in Hrow as (n & <- & _).
  split; [|by rewrite lookup_insert_eq].
  intros c. rewrite <- elem_of_dom, dom_insert_L, asdict_dom.
  rewrite elem_of_union, elem_of_singleton, elem_of_list_to_set.
  rewrite elem_of_app, list_elem_of_singleton. tauto.
Qed.

(** X6.  The table handed to the editor has the same seven columns, in the
    same order, whether there are needs or not; it has one row for each
    need, in order, every row has a value for each column and for
    nothing else, and every row is ticked for sending.  It is empty
    exactly when there is no need. *)
Theorem needs_to_dataframe_shape (needs : list Need) :
  columns (needs_to_dataframe needs) = Need_fields ++ ["Envoyer ?"]
  /\ rows (needs_to_dataframe needs)
     = map (fun n => <["Envoyer ?" := VBool true]> (asdict n)) needs
  /\ Forall (fun row : Row =>
               (forall c, is_Some (row !! c)
                          <-> c ∈ columns (needs_to_dataframe needs))
               /\ row !! "Envoyer ?" = Some (VBool true))
       (rows (needs_to_dataframe needs))
  /\ df_empty (needs_to_dataframe needs)
     = match needs with [] => true | _ :: _ => false end.
Proof. apply needs_to_dataframe_facts. Qed.

(** ** The routing of a row to an address *)

Lemma SERVICES_labels_NoDup : NoDup (SERVICES_items.*2).
Proof. apply (bool_decide_unpack _). by vm_compute. Qed.

Lemma SERVICES_keys_have_recipients :
  Forall (fun kl : string * string => is_Some (DEFAULT_RECIPIENTS !! kl.1))
    SERVICES_items.
Proof.
  unfold SERVICES_items.
  repeat (apply Forall_cons; split; [eexists; vm_compute; reflexivity|]).
  by apply Forall_nil.
Qed.

Lemma find_recipient_first_match (items : list (string * string))
    (recipients : gmap string string) (row : Row) (v : Value) :
  row !! "service" = Some v ->
  Forall (fun kl : string * string => is_Some (DEFAULT_RECIPIENTS !! kl.1))
    items ->
  find_recipient items recipients row
  = Ok (match first_match v items with
        | Some kl => Some (default (DEFAULT_RECIPIENTS !!! kl.1)
                             (recipients !! kl.1))
        | None => None
        end).
Proof.
  intros Hrow. induction items as [|[k l] items IH]; intros Hitems.
  - reflexivity.
  - apply Forall_cons in Hitems as [[d Hd] Hitems]. simpl in Hd.
    cbn [find_recipient]. unfold getitem. rewrite Hrow.
    unfold first_match. cbn [mbind Result_bind List.find snd fst].
    destruct (str_eq_value l v).
    + rewrite Hd. cbn [mbind Result_bind mret Result_ret fst].
      by rewrite (lookup_total_correct _ _ _ Hd).
    + by apply IH.
Qed.

Lemma first_match_label (items : list (string * string)) (k label : string) :
  NoDup (items.*2) -> (k, label) ∈ items ->
  first_match (VStr label) items = Some (k, label).
Proof.
  unfold first_match.
  induction items as [|[k' l'] items IH]; intros Hnd Hin;
    [by apply elem_of_nil in Hin|].
  cbn [fmap list_fmap snd] in Hnd. apply NoDup_cons in Hnd as [Hl' Hnd].
  cbn [List.find snd str_eq_value].
  apply elem_of_cons in Hin as [Heq|Hin].
  - injection Heq as -> ->. by rewrite String.eqb_refl.
  - destruct (String.eqb l' label) eqn:Heq; [|by apply IH].
    apply String.eqb_eq in Heq. subst l'. exfalso. apply Hl'.
    by apply (list_elem_of_fmap_2 snd _ (k, label)).
Qed.

Lemma first_match_Some (v : Value) (items : list (string * string))
    (kl : string * string) :
  first_match v items = Some kl -> kl ∈ items /\ v = VStr kl.2.
Proof.
  unfold first_match. intros H. apply find_some in H as [Hin Heq].
  split; [by apply list_elem_of_In|].
  destruct v; simpl in Heq; try done. by apply String.eqb_eq in Heq as ->.
Qed.

Lemma resolve_recipient_first_match (recipients : gmap string string)
    (row : Row) (v : Value) :
  row !! "service" = Some v ->
  resolve_recipient recipients row
  = Ok (or_fallback
          (match first_match v SERVICES_items with
           | Some kl => Some (default (DEFAULT_RECIPIENTS !!! kl.1)
                                (recipients !! kl.1))
           | None => None
           end)).
Proof.
  intros Hrow. unfold resolve_recipient.
  rewrite (find_recipient_first_match _ _ _ v Hrow
             SERVICES_keys_have_recipients).
  reflexivity.
Qed.

(** X7.  Routing a display name back to its key: a row whose service is the
    display name of the key [k] goes to the address typed for [k], to
    the default address of [k] when none was typed, and to
    [info@cabinet.com] when the address typed is empty. *)
Theorem resolve_recipient_round_trip (recipients : gmap string string)
    (k label : string) (row : Row) :
  SERVICES !! k = Some label ->
  row !! "service" = Some (VStr label) ->
  exists d,
    DEFAULT_RECIPIENTS !! k = Some d
    /\ resolve_recipient recipients row
       = Ok (match default d (recipients !! k) with
             | EmptyString => "info@cabinet.com"
             | String c r => String c r
             end).
Proof.
  intros Hk Hrow. apply elem_of_list_to_map_2 in Hk.
  pose proof SERVICES_keys_have_recipients as Hall.
  rewrite Forall_forall in Hall. destruct (Hall _ Hk) as [d Hd].
  exists d. split; [exact Hd|].
  rewrite (resolve_recipient_first_match _ _ _ Hrow).
  rewrite (first_match_label _ _ _ SERVICES_labels_NoDup Hk).
  cbn [fst or_fallback]. rewrite (lookup_total_correct _ _ _ Hd).
  by destruct (default d (recipients !! k)).
Qed.

Lemma resolve_recipient_round_trip_social :
  exists d,
    DEFAULT_RECIPIENTS !! "social" = Some d
    /\ resolve_recipient (<["social" := "rh@exemple.fr"]> DEFAULT_RECIPIENTS)
         (asdict need_social_audit)
       = Ok (match default d
                     (<["social" := "rh@exemple.fr"]> DEFAULT_RECIPIENTS
                        !! "social") with
             | EmptyString => "info@cabinet.com"
             | String c r => String c r
             end).
Proof.
  apply (resolve_recipient_round_trip _ "social" "Service Paie & RH");
    vm_compute; reflexivity.
Defined.

(** X8.  The routing of a row fails only when the row has no service, and
    never gives an empty address; a service that is the display name of
    no key goes to [info@cabinet.com]. *)
Theorem resolve_recipient_total (recipients : gmap string string) (row : Row) :
  match row !! "service" with
  | None => resolve_recipient recipients row = KeyError "service"
  | Some v =>
      exists e,
        resolve_recipient recipients row = Ok e
        /\ e <> EmptyString
        /\ ((forall k label, SERVICES !! k = Some label -> v <> VStr label)
            -> e = "info@cabinet.com")
  end.
Proof.
  destruct (row !! "service") as [v|] eqn:Hrow.
  - rewrite (resolve_recipient_first_match _ _ _ Hrow).
    eexists. split; [reflexivity|]. split.
    + destruct (first_match v SERVICES_items) as [kl|]; [|done].
      cbn [or_fallback].
      by destruct (default (DEFAULT_RECIPIENTS !!! kl.1) (recipients !! kl.1)).
    + intros Hno.
      destruct (first_match v SERVICES_items) as [[k l]|] eqn:Hfm; [|done].
      apply first_match_Some in Hfm as [Hin ->]. exfalso.
      apply (Hno k l); [|done].
      apply elem_of_list_to_map_1; [apply SERVICES_keys_NoDup | done].
  - unfold resolve_recipient, SERVICES_items. cbn [find_recipient].
    unfold getitem. by rewrite Hrow.
Qed.

(** ** The draft of an e-mail *)

Section EmailProperties.

Variable dedent : string -> string.

Lemma getitem_Ok (row : Row) (k : string) :
  is_Some (row !! k) -> exists v, row !! k = Some v /\ getitem row k = Ok v.
Proof. intros [v Hv]. exists v. unfold getitem. by rewrite Hv. Qed.

(** Closes the case of [make_email] on a row that lacks the field [K]. *)
Ltac missing_field row K HK :=
  split; [split|split];
  [ intros Hall; rewrite Forall_forall in Hall;
    assert (Hs : is_Some (row !! K))
      by (apply Hall, str_in_elem_of; reflexivity);
    rewrite HK in Hs; by destruct Hs
  | intros [em Hem]; discriminate Hem
  | intros em Hem; discriminate Hem
  | intros k [= <-]; split; [apply str_in_elem_of; reflexivity | exact HK] ].

(** X9.  [make_email] succeeds exactly on the rows that have the six fields
    of a need; then the draft is addressed to the address given.
    Otherwise it raises [KeyError] on a field that the row lacks. *)
Theorem make_email_needs_six_fields (service_email client_name : string)
    (row : Row) :
  (Forall (fun k => is_Some (row !! k)) Need_fields
   <-> exists em, make_email dedent service_email client_name row = Ok em)
  /\ (forall em, make_email dedent service_email client_name row = Ok em ->
                 to em = service_email)
  /\ (forall k, make_email dedent service_email client_name row = KeyError k ->
                k ∈ Need_fields /\ row !! k = None).
Proof.
  unfold make_email, getitem.
  destruct (row !! "besoin") as [v1|] eqn:H1; cbn [mbind Result_bind];
    [|missing_field row "besoin" H1].
  destruct (row !! "priorite") as [v2|] eqn:H2; cbn [mbind Result_bind];
    [|missing_field row "priorite" H2].
  destruct (row !! "echeance") as [v3|] eqn:H3; cbn [mbind Result_bind];
    [|missing_field row "echeance" H3].
  destruct (row !! "service") as [v4|] eqn:H4; cbn [mbind Result_bind];
    [|missing_field row "service" H4].
  destruct (row !! "impact") as [v5|] eqn:H5; cbn [mbind Result_bind];
    [|missing_field row "impact" H5].
  destruct (row !! "justification") as [v6|] eqn:H6; cbn [mbind Result_bind];
    [|missing_field row "justification" H6].
  cbn [mret Result_ret]. split; [split|split].
  - intros _. by eexists.
  - intros _. apply Forall_forall. intros k Hk.
    unfold Need_fields in Hk.
    repeat (apply elem_of_cons in Hk as [->|Hk]; [by eexists|]).
    by apply elem_of_nil in Hk.
  - by intros em [= <-].
  - intros k Hk. discriminate Hk.
Qed.

End EmailProperties.

(** ** From the needs to the drafts *)

Lemma filter_all {A : Type} (f : A -> bool) (l : list A) :
  Forall (fun x => f x = true) l -> List.filter f l = l.
Proof.
  induction 1 as [|x l Hx _ IH]; simpl; [done|]. by rewrite Hx, IH.
Qed.

(** Nothing is left out of a table that was not edited. *)
Lemma to_send_unedited (needs : list Need) :
  to_send (needs_to_dataframe needs) = Ok (needs_to_dataframe needs).
Proof.
  destruct (needs_to_dataframe_facts needs) as (Hc & Hr & Hall & He).
  unfold to_send. rewrite He. destruct needs as [|n l]; [reflexivity|].
  cbn [negb]. rewrite Hc.
  assert (Hin : str_in "Envoyer ?" (Need_fields ++ ["Envoyer ?"]) = true)
    by reflexivity.
  rewrite Hin. rewrite filter_all.
  - by rewrite <- Hc.
  - eapply Forall_impl; [exact Hall|]. intros row [_ Hrow]. by rewrite Hrow.
Qed.

Lemma default_recipients_real :
  Forall (fun kd : string * string =>
            kd.2 <> EmptyString /\ kd.2 <> "info@cabinet.com")
    DEFAULT_RECIPIENTS_items.
Proof.
  unfold DEFAULT_RECIPIENTS_items.
  repeat (apply Forall_cons; split; [split; discriminate|]).
  by apply Forall_nil.
Qed.

Section Drafts.

Variable dedent : string -> string.

Lemma make_email_of_need (e client_name : string) (n : Need) :
  exists em,
    make_email dedent e client_name
      (<["Envoyer ?" := VBool true]> (asdict n)) = Ok em
    /\ to em = e
    /\ subject em
       = ("[DIAG] " ++ client_name ++ " — " ++ besoin n ++ " ("
          ++ priorite n ++ ", " ++ echeance n ++ ")")%string.
Proof.
  unfold make_email, getitem.
  assert (H1 : <["Envoyer ?" := VBool true]> (asdict n) !! "besoin"
               = Some (VStr (besoin n))) by (vm_compute; reflexivity).
  assert (H2 : <["Envoyer ?" := VBool true]> (asdict n) !! "priorite"
               = Some (VStr (priorite n))) by (vm_compute; reflexivity).
  assert (H3 : <["Envoyer ?" := VBool true]> (asdict n) !! "echeance"
               = Some (VStr (echeance n))) by (vm_compute; reflexivity).
  assert (H4 : <["Envoyer ?" := VBool true]> (asdict n) !! "service"
               = Some (VStr (service n))) by (vm_compute; reflexivity).
  assert (H5 : <["Envoyer ?" := VBool true]> (asdict n) !! "impact"
               = Some (VInt (impact n))) by (vm_compute; reflexivity).
  assert (H6 : <["Envoyer ?" := VBool true]> (asdict n) !! "justification"
               = Some (VStr (justification n))) by (vm_compute; reflexivity).
  rewrite H1, H2, H3, H4, H5, H6.
  cbn [mbind Result_bind mret Result_ret]. eexists. split; [reflexivity|].
  split; reflexivity.
Qed.

Lemma emails_of_rows_needs (client_name : string) (needs : list Need) :
  Forall need_valid needs ->
  exists emails,
    emails_of_rows dedent DEFAULT_RECIPIENTS client_name
      (map (fun n => <["Envoyer ?" := VBool true]> (asdict n)) needs)
    = Ok emails
    /\ Forall2 (drafted client_name) needs emails.
Proof.
  induction 1 as [|n needs Hn _ (emails & Hems & Hall)].
  - exists []. split; [reflexivity | constructor].
  - destruct Hn as ((k & Hk) & _).
    pose proof (elem_of_list_to_map_2 _ _ _ Hk) as Hin.
    pose proof SERVICES_keys_have_recipients as Hrec.
    rewrite Forall_forall in Hrec. destruct (Hrec _ Hin) as [d Hd].
    cbn [fst] in Hd.
    pose proof default_recipients_real as Hreal.
    rewrite Forall_forall in Hreal.
    destruct (Hreal _ (elem_of_list_to_map_2 _ _ _ Hd)) as [Hne Hni].
    cbn [snd] in Hne, Hni.
    destruct (make_email_of_need d client_name n) as (em & Hem & Hto & Hsub).
    exists (em :: emails). cbn [map emails_of_rows].
    rewrite (resolve_recipient_first_match _ _ (VStr (service n)))
      by (vm_compute; reflexivity).
    rewrite (first_match_label _ _ _ SERVICES_labels_NoDup Hin).
    cbn [fst]. rewrite Hd, (lookup_total_correct _ _ _ Hd).
    cbn [default from_option or_fallback id].
    destruct d as [|c r]; [done|].
    cbn [mbind Result_bind]. rewrite Hem. cbn [mbind Result_bind].
    rewrite Hems. cbn [mbind Result_bind mret Result_ret].
    split; [reflexivity|]. constructor; [|exact Hall].
    split; [|split; [by rewrite Hto | exact Hsub]].
    exists k. by rewrite Hto.
Qed.

(** X10.  From the profile to the drafts: with the default addresses and a
    table that was not edited, every need the deriver returns is drafted
    once, in order, to the default address of its department, never to
    [info@cabinet.com], under the subject
    [[DIAG] client — need (priority, deadline)]. *)
Theorem needs_are_drafted_to_their_department (p : ClientProfile)
    (swot : Swot) (out : list Need) :
  detect_needs p swot = Ok out ->
  exists emails,
    draft_emails dedent DEFAULT_RECIPIENTS (nom p) (needs_to_dataframe out)
    = Ok emails
    /\ Forall2 (drafted (nom p)) out emails.
Proof.
  intros Hout.
  assert (Hvalid : Forall need_valid out).
  { rewrite detect_needs_generated in Hout. injection Hout as <-.
    eapply sublist_Forall; [apply dedup_sublist | apply need_valid_generated]. }
  destruct (emails_of_rows_needs (nom p) out Hvalid) as (emails & Hems & Hall).
  exists emails. split; [|exact Hall].
  unfold draft_emails. rewrite to_send_unedited. cbn [mbind Result_bind].
  destruct (needs_to_dataframe_facts out) as (_ & Hr & _ & He).
  rewrite He, Hr. destruct out as [|n l]; [|exact Hems].
  cbn in Hems. by injection Hems as <-.
Qed.

End Drafts.

Lemma needs_are_drafted_to_their_department_scenario2 :
  exists out,
    detect_needs scenario2 (swot_from_profile scenario2) = Ok out
    /\ exists emails,
         draft_emails (fun s => s) DEFAULT_RECIPIENTS (nom scenario2)
           (needs_to_dataframe out) = Ok emails
         /\ Forall2 (drafted (nom scenario2)) out emails.
Proof.
  eexists. split; [vm_compute; reflexivity|].
  apply (needs_are_drafted_to_their_department (fun s => s) scenario2
           (swot_from_profile scenario2)).
  vm_compute. reflexivity.
Defined.

(** ** The members of the archive *)












(** ** The classification handed to the deriver *)

(** X5.  The deriver reads the weaknesses, the opportunities and the threats
    of the classification it is handed, a category that is missing
    counting as an empty one, and never its strengths: it returns what
    it returns on the three categories alone. *)
Theorem detect_needs_reads_three_categories (p : ClientProfile)
    (swot : Swot) :
  detect_needs p swot
  = detect_needs p
      [ ("Faiblesses", swot_get "Faiblesses" swot);
        ("Opportunités", swot_get "Opportunités" swot);
        ("Menaces", swot_get "Menaces" swot) ].
Proof.
  set (swot' := [ ("Faiblesses", swot_get "Faiblesses" swot);
                  ("Opportunités", swot_get "Opportunités" swot);
                  ("Menaces", swot_get "Menaces" swot) ]).
  assert (HF : swot_get "Faiblesses" swot' = swot_get "Faiblesses" swot)
    by reflexivity.
  assert (HO : swot_get "Opportunités" swot' = swot_get "Opportunités" swot)
    by reflexivity.
  assert (HM : swot_get "Menaces" swot' = swot_get "Menaces" swot)
    by reflexivity.
  unfold detect_needs, generate. by rewrite HF, HO, HM.
Qed.

(** ** The rows that are sent *)

Section Sending.

Variable dedent : string -> string.



End Sending.


(** ** The Markdown synthesis *)

Lemma swot_getitem_cases (k : string) (swot : Swot) :
  (str_in k (map fst swot) = true /\ exists obs, swot_getitem k swot = Ok obs)
  \/ (str_in k (map fst swot) = false /\ swot_getitem k swot = KeyError k).
Proof.
  induction swot as [|[k' v] swot IH]; [by right|].
  unfold str_in in *. cbn [map fst existsb swot_getitem].
  destruct (String.eqb k k'); cbn [orb]; [left; eauto | exact IH].
Qed.

Lemma md_swot_cases (blocs : list string) (swot : Swot) :
  (Forall (fun k => str_in k (map fst swot) = true) blocs
   /\ exists lines, md_swot blocs swot = Ok lines)
  \/ (exists k, k ∈ blocs /\ str_in k (map fst swot) = false
                /\ md_swot blocs swot = KeyError k).
Proof.
  induction blocs as [|b blocs IH]; cbn [md_swot].
  - left. split; [constructor | by eexists].
  - destruct (swot_getitem_cases b swot) as [[Hb [obs ->]]|[Hb ->]];
      cbn [mbind Result_bind].
    + destruct IH as [[Hall [lines ->]]|(k & Hk & Hmiss & ->)];
        cbn [mbind Result_bind mret Result_ret].
      * left. split; [by constructor | by eexists].
      * right. exists k. split; [by right | done].
    + right. exists b. split; [by left | done].
Qed.

Lemma md_rows_of_needs (needs : list Need) :
  exists lines,
    md_rows (map (fun n => <["Envoyer ?" := VBool true]> (asdict n)) needs)
    = Ok lines.
Proof.
  induction needs as [|n needs [lines IH]]; [by eexists|].
  cbn [map md_rows]. unfold getitem.
  assert (H1 : <["Envoyer ?" := VBool true]> (asdict n) !! "besoin"
               = Some (VStr (besoin n))) by (vm_compute; reflexivity).
  assert (H2 : <["Envoyer ?" := VBool true]> (asdict n) !! "service"
               = Some (VStr (service n))) by (vm_compute; reflexivity).
  assert (H3 : <["Envoyer ?" := VBool true]> (asdict n) !! "priorite"
               = Some (VStr (priorite n))) by (vm_compute; reflexivity).
  assert (H4 : <["Envoyer ?" := VBool true]> (asdict n) !! "echeance"
               = Some (VStr (echeance n))) by (vm_compute; reflexivity).
  assert (H5 : <["Envoyer ?" := VBool true]> (asdict n) !! "impact"
               = Some (VInt (impact n))) by (vm_compute; reflexivity).
  assert (H6 : <["Envoyer ?" := VBool true]> (asdict n) !! "justification"
               = Some (VStr (justification n))) by (vm_compute; reflexivity).
  rewrite H1, H2, H3, H4, H5, H6, IH.
  cbn [mbind Result_bind mret Result_ret]. by eexists.
Qed.

(** X13.  On the table of a list of needs, the synthesis is produced exactly
    when the classification has its four categories; otherwise it
    raises [KeyError] on a category that is missing, where the deriver
    takes the category for empty.  It is produced for the
    classification of every profile. *)
Theorem md_needs_four_categories (p : ClientProfile)
    (client_name today : string) (swot : Swot) (needs : list Need) :
  (Forall (fun k => str_in k (map fst swot) = true)
     ["Forces"; "Faiblesses"; "Opportunités"; "Menaces"]
   <-> exists text,
         md client_name today swot (needs_to_dataframe needs) = Ok text)
  /\ (forall k,
        md client_name today swot (needs_to_dataframe needs) = KeyError k ->
        k ∈ ["Forces"; "Faiblesses"; "Opportunités"; "Menaces"]
        /\ str_in k (map fst swot) = false)
  /\ (exists text,
        md client_name today (swot_from_profile p) (needs_to_dataframe needs)
        = Ok text).
Proof.
  assert (Hn : exists n,
            (if negb (df_empty (needs_to_dataframe needs))
             then md_rows (rows (needs_to_dataframe needs))
             else mret ["- (aucun)"]) = Ok n).
  { destruct (needs_to_dataframe_facts needs) as (_ & -> & _ & ->).
    destruct needs as [|n l]; cbn [negb]; [by eexists|].
    apply md_rows_of_needs. }
  destruct Hn as [n Hn].
  assert (Hmd : forall sw,
            (Forall (fun k => str_in k (map fst sw) = true)
               ["Forces"; "Faiblesses"; "Opportunités"; "Menaces"]
             /\ exists text,
                  md client_name today sw (needs_to_dataframe needs) = Ok text)
            \/ (exists k,
                  k ∈ ["Forces"; "Faiblesses"; "Opportunités"; "Menaces"]
                  /\ str_in k (map fst sw) = false
                  /\ md client_name today sw (needs_to_dataframe needs)
                     = KeyError k)).
  { intros sw. unfold md, md_lines.
    destruct (md_swot_cases ["Forces"; "Faiblesses"; "Opportunités"; "Menaces"]
                sw) as [[Hall [lines ->]]|(k & Hk & Hmiss & ->)].
    - left. split; [done|]. cbn [mbind Result_bind]. rewrite Hn.
      by eexists.
    - right. exists k. by repeat split. }
  split; [|split].
  - destruct (Hmd swot) as [[Hall Hok]|(k & Hk & Hmiss & Herr)].
    + by split.
    + split.
      * intros Hall. rewrite Forall_forall in Hall.
        rewrite (Hall k Hk) in Hmiss. discriminate Hmiss.
      * intros [text Ht]. rewrite Herr in Ht. discriminate Ht.
  - intros k Hk.
    destruct (Hmd swot) as [[_ [text Ht]]|(k' & Hk' & Hmiss & Herr)].
    + rewrite Ht in Hk. discriminate Hk.
    + rewrite Herr in Hk. by injection Hk as <-.
  - destruct (Hmd (swot_from_profile p)) as [[_ Hok]|(k & Hk & Hmiss & _)];
      [done|].
    exfalso.
    repeat (apply elem_of_cons in Hk as [->|Hk]; [discriminate Hmiss|]).
    by apply elem_of_nil in Hk.
Qed.
